(** * onchain-agent: the cost-aware metric, the mock dataset and the API clients

    A shallow embedding of
    - [src/lib/gepaPaymentOptimizer.py]: [CostAwareEfficiencyMetric.__call__]
      and [create_mock_payment_dataset];
    - [public/sdk/python/onchain_agent_sdk.py]: [AIAgentClient];
    - [public/examples/quick-start.py]: [CostOptimizedAIAgent].

    Conventions of the embedding.
    - A Python [float] is a [pyfloat]: an exact rational, or one of the three
      special values [inf], [-inf], [nan].  The special values behave as in
      Python (comparisons with [nan] are false, [inf - inf] is [nan], ...).
      Rounding, overflow to [inf] and the sign of zero are not modelled: the
      arithmetic of finite values is exact.
    - Python values that the code inspects dynamically are [pyval]s.
    - A computation that may raise is an [outcome]; a method that also
      mutates its object or talks to the network is an [eff]. *)

From Stdlib Require Import ZArith QArith Lqa Lia List String Ascii Bool.
From Stdlib Require Import DecimalString.
From stdpp Require Import gmap strings.
Import ListNotations.

(** ** Python floats *)

Inductive pyfloat : Type :=
| Fin (q : Q)
| PInf
| NInf
| NaN.

(** Numeric equality of two floats of the model: rationals are compared
    with [Qeq], a special value only equals itself. *)
Definition feq (x y : pyfloat) : Prop :=
  match x, y with
  | Fin a, Fin b => (a == b)%Q
  | PInf, PInf | NInf, NInf | NaN, NaN => True
  | _, _ => False
  end.

Definition inf_of_sign (c : comparison) : pyfloat :=
  match c with
  | Gt => PInf
  | Lt => NInf
  | Eq => NaN
  end.

Definition fadd (x y : pyfloat) : pyfloat :=
  match x, y with
  | NaN, _ | _, NaN => NaN
  | Fin a, Fin b => Fin (a + b)
  | PInf, NInf | NInf, PInf => NaN
  | PInf, _ | _, PInf => PInf
  | NInf, _ | _, NInf => NInf
  end.

Definition fmul (x y : pyfloat) : pyfloat :=
  match x, y with
  | NaN, _ | _, NaN => NaN
  | Fin a, Fin b => Fin (a * b)
  | PInf, Fin b | Fin b, PInf => inf_of_sign (b ?= 0)%Q
  | NInf, Fin b | Fin b, NInf => inf_of_sign (0 ?= b)%Q
  | PInf, PInf | NInf, NInf => PInf
  | PInf, NInf | NInf, PInf => NInf
  end.

(** [x < y] and [x <= y] as Python evaluates them: false when an operand is
    [nan]. *)
Definition flt (x y : pyfloat) : bool :=
  match x, y with
  | NaN, _ | _, NaN => false
  | Fin a, Fin b => negb (Qle_bool b a)
  | NInf, NInf | PInf, PInf => false
  | NInf, _ | _, PInf => true
  | _, NInf | PInf, _ => false
  end.

Definition fle (x y : pyfloat) : bool :=
  match x, y with
  | NaN, _ | _, NaN => false
  | Fin a, Fin b => Qle_bool a b
  | NInf, _ | _, PInf => true
  | _, NInf | PInf, _ => false
  end.

Definition fgt (x y : pyfloat) : bool := flt y x.
Definition fge (x y : pyfloat) : bool := fle y x.

Definition fis_zero (x : pyfloat) : bool :=
  match x with
  | Fin q => Qeq_bool q 0
  | _ => false
  end.

(** The builtins [min(a, b)] and [max(a, b)] on two arguments: the first
    argument is kept unless the second is strictly smaller (greater). *)
Definition py_min2 (a b : pyfloat) : pyfloat := if flt b a then b else a.
Definition py_max2 (a b : pyfloat) : pyfloat := if fgt b a then b else a.

(** ** Python values *)

#[warnings="-register-all"]
Inductive pyval : Type :=
| VNone
| VBool (b : bool)
| VInt (z : Z)
| VFloat (f : pyfloat)
| VStr (s : string)
| VBytes (s : string)
| VList (l : list pyval)
| VDict (d : gmap string pyval).

(** Truth value testing ([if v:], [not v]). *)
Definition py_truthy (v : pyval) : bool :=
  match v with
  | VNone => false
  | VBool b => b
  | VInt z => negb (z =? 0)%Z
  | VFloat f => negb (fis_zero f)
  | VStr s | VBytes s => negb (String.length s =? 0)%nat
  | VList l => negb (length l =? 0)%nat
  | VDict d => negb (size d =? 0)%nat
  end.

(** ** Exceptions and outcomes *)

Inductive pyexc : Type :=
| ValueError (arg : pyval)
| AttributeError
| TypeError
| KeyError (key : string)
| ZeroDivisionError
| RequestException (msg : string)
| Timeout
| ConnectionError
| OtherRequestError
| JSONDecodeError
| HTTPError (status_code : Z) (reason : string) (json_body : option pyval).

Inductive outcome (A : Type) : Type :=
| Return (a : A)
| Raise (e : pyexc).
Arguments Return {A} a.
Arguments Raise {A} e.

#[global] Instance outcome_ret : MRet outcome := @Return.
#[global] Instance outcome_bind : MBind outcome :=
  fun A B f m => match m with
                 | Return a => f a
                 | Raise e => Raise e
                 end.

(** [try: body except (ValueError, AttributeError): handler]. *)
Definition except_ValueError_AttributeError {A : Type}
    (body : outcome A) (handler : A) : outcome A :=
  match body with
  | Raise (ValueError _) | Raise AttributeError => Return handler
  | other => other
  end.

(** ** The numeric operations the sources use *)

(** [a / b] on floats: Python raises [ZeroDivisionError] on a zero divisor
    before anything else. *)
Definition py_truediv (x y : pyfloat) : outcome pyfloat :=
  if fis_zero y then Raise ZeroDivisionError
  else Return
    match x, y with
    | NaN, _ | _, NaN => NaN
    | Fin a, Fin b => Fin (a / b)
    | Fin _, _ => Fin 0
    | PInf, Fin b => inf_of_sign (b ?= 0)%Q
    | NInf, Fin b => inf_of_sign (0 ?= b)%Q
    | _, _ => NaN
    end.

(** The value of a number in float arithmetic ([bool] is a subclass of
    [int]). *)
Definition as_float (v : pyval) : option pyfloat :=
  match v with
  | VBool b => Some (Fin (if b then 1 else 0))
  | VInt z => Some (Fin (inject_Z z))
  | VFloat f => Some f
  | _ => None
  end.

(** [v * u] for a float [u]: defined on numbers, a [TypeError] on anything
    else (a sequence cannot be multiplied by a float). *)
Definition py_mul_float (v : pyval) (u : pyfloat) : outcome pyval :=
  match as_float v with
  | Some x => Return (VFloat (fmul x u))
  | None => Raise TypeError
  end.

(** ** Strings: [str.replace] and [float(str)] *)

(** [s.replace(c, '')] for a one-character [c]: every occurrence of [c]
    is removed.  The metric only uses this form. *)
Fixpoint str_remove (c : ascii) (s : string) : string :=
  match s with
  | EmptyString => EmptyString
  | String a rest =>
      if Ascii.eqb a c then str_remove c rest else String a (str_remove c rest)
  end.

(** The method call [v.replace(c, '')] with a [str] argument [c]: only a
    [str] has the method with that signature; [bytes.replace] exists but
    refuses [str] arguments with a [TypeError]; the other values have no
    attribute [replace]. *)
Definition py_replace (v : pyval) (c : ascii) : outcome pyval :=
  match v with
  | VStr s => Return (VStr (str_remove c s))
  | VBytes _ => Raise TypeError
  | _ => Raise AttributeError
  end.

Module FloatLiteral.
(** The grammar that [float()] accepts for a string, as the Python
    language reference gives it (ASCII part):
<<
    floatvalue  ::= [sign] (floatnumber | "inf" | "infinity" | "nan")
    floatnumber ::= number [exponent]
    number      ::= [digitpart] "." digitpart | digitpart ["."]
    exponent    ::= ("e" | "E") [sign] digitpart
    digitpart   ::= digit (["_"] digit)*
>>
    surrounded by optional white space, letters in either case. *)

Definition is_space (c : ascii) : bool :=
  let n := N_of_ascii c in
  (((9 <=? n) && (n <=? 13)) || ((28 <=? n) && (n <=? 32)))%N.

Definition is_digit (c : ascii) : bool :=
  let n := N_of_ascii c in ((48 <=? n) && (n <=? 57))%N.

Definition digit_val (c : ascii) : Z := Z.of_N (N_of_ascii c) - 48.

Definition lower (c : ascii) : ascii :=
  let n := N_of_ascii c in
  if ((65 <=? n) && (n <=? 90))%N then ascii_of_N (n + 32) else c.

Fixpoint lstrip (s : list ascii) : list ascii :=
  match s with
  | c :: t => if is_space c then lstrip t else s
  | [] => []
  end.

Definition strip (s : list ascii) : list ascii :=
  rev (lstrip (rev (lstrip s))).

(** true for a minus sign *)
Definition sign (s : list ascii) : bool * list ascii :=
  match s with
  | "-"%char :: t => (true, t)
  | "+"%char :: t => (false, t)
  | _ => (false, s)
  end.

(** Reads the rest of a digitpart: the value read so far, the number of
    digits read so far, and the input; an underscore is consumed only
    between two digits. *)
Fixpoint digits (acc : Z) (count : Z) (s : list ascii)
  : Z * Z * list ascii :=
  match s with
  | c :: t =>
      if is_digit c then digits (10 * acc + digit_val c) (count + 1) t
      else if Ascii.eqb c "_" then
        match t with
        | d :: _ => if is_digit d then digits acc count t else (acc, count, s)
        | [] => (acc, count, s)
        end
      else (acc, count, s)
  | [] => (acc, count, [])
  end.

Definition digitpart (s : list ascii) : option (Z * Z * list ascii) :=
  match s with
  | c :: _ => if is_digit c then Some (digits 0 0 s) else None
  | [] => None
  end.

(** The exponent, 0 when there is none; the whole input must be used. *)
Definition exponent (s : list ascii) : option Z :=
  match s with
  | [] => Some 0%Z
  | c :: t =>
      if Ascii.eqb (lower c) "e" then
        let '(neg, t') := sign t in
        match digitpart t' with
        | Some (v, _, []) => Some (if neg then (- v)%Z else v)
        | _ => None
        end
      else None
  end.

Definition floatnumber (s : list ascii) : option Q :=
  let '(ip, s1) :=
    match digitpart s with
    | Some (v, _, r) => (Some v, r)
    | None => (None, s)
    end in
  let '(fp, s2) :=
    match s1 with
    | "."%char :: r =>
        match digitpart r with
        | Some (v, k, r') => (Some (v, k), r')
        | None => (None, r)
        end
    | _ => (None, s1)
    end in
  match ip, fp with
  | None, None => None
  | _, _ =>
      let i := default 0%Z ip in
      let '(f, k) := default (0%Z, 0%Z) fp in
      match exponent s2 with
      | Some e => Some (inject_Z (i * 10 ^ k + f) * Qpower 10 (e - k))%Q
      | None => None
      end
  end.

Definition floatvalue (s : list ascii) : option pyfloat :=
  let '(neg, t) := sign (strip s) in
  let word := string_of_list_ascii (map lower t) in
  if (String.eqb word "inf" || String.eqb word "infinity")%bool
  then Some (if neg then NInf else PInf)
  else if String.eqb word "nan" then Some NaN
  else match floatnumber t with
       | Some q => Some (Fin (Qred (if neg then - q else q)))
       | None => None
       end.
End FloatLiteral.

(** [float(s)] for a string. *)
Definition float_of_string (s : string) : option pyfloat :=
  FloatLiteral.floatvalue (list_ascii_of_string s).

(** The builtin [float(v)]: numbers convert, strings and bytes are parsed
    ([ValueError] when the text is no float literal), anything else is a
    [TypeError]. *)
Definition py_float (v : pyval) : outcome pyfloat :=
  match v with
  | VBool _ | VInt _ | VFloat _ =>
      match as_float v with
      | Some f => Return f
      | None => Raise TypeError
      end
  | VStr s | VBytes s =>
      match float_of_string s with
      | Some f => Return f
      | None => Raise (ValueError (VStr "could not convert string to float"))
      end
  | _ => Raise TypeError
  end.

(** ** [gepaPaymentOptimizer.py]: the metric *)

(** A [dspy.Prediction]: its named fields, and the length of its rendering
    [str(prediction)], which the framework computes. *)
Record Prediction : Type := {
  pred_fields : gmap string pyval;
  pred_str_len : nat
}.

(** Attribute access on a prediction: a missing field is an
    [AttributeError]. *)
Definition py_getattr (p : Prediction) (name : string) : outcome pyval :=
  match pred_fields p !! name with
  | Some v => Return v
  | None => Raise AttributeError
  end.

(** [d.get(key, dflt)] *)
Definition dict_get (d : gmap string pyval) (key : string) (dflt : pyval)
  : pyval :=
  default dflt (d !! key).

Module CostAwareEfficiencyMetric.
Section Metric.
(** [self.target_savings_threshold] *)
Variable target_savings_threshold : pyfloat.

(** The body of the [try] block of [__call__]. *)
Definition call_body (example : gmap string pyval)
    (prediction : Prediction) : outcome pyfloat :=
  attr ← py_getattr prediction "total_savings";
  no_dollar ← py_replace attr "$";
  no_comma ← py_replace no_dollar ",";
  savings ← py_float no_comma;
  target_savings ← py_float (dict_get example "target_savings" (VInt 0));
  ratio ← py_truediv savings (py_max2 target_savings (Fin 1));
  let savings_accuracy := py_min2 ratio (Fin 1.0) in
  let token_count := Z.of_nat (pred_str_len prediction) in
  denom ← py_truediv (Fin (inject_Z token_count)) (Fin 1000);
  token_efficiency ← py_truediv (Fin 1.0) (fadd (Fin 1.0) denom);
  let cost_efficiency :=
    fadd (fmul savings_accuracy (Fin 0.7))
         (fmul token_efficiency (Fin 0.3)) in
  let cost_efficiency :=
    if fge savings (fmul target_savings target_savings_threshold)
    then fadd cost_efficiency (Fin 0.2)
    else cost_efficiency in
  mret (py_min2 cost_efficiency (Fin 1.0)).

Definition __call__ (example : gmap string pyval)
    (prediction : Prediction) : outcome pyfloat :=
  except_ValueError_AttributeError (call_body example prediction) (Fin 0.0).
End Metric.
End CostAwareEfficiencyMetric.

(** The default of [__init__]: [target_savings_threshold = 0.3]. *)
Definition default_threshold : pyfloat := Fin 0.3.

(** *** The score as the specification writes it *)

(** The quotient as a total function: [nan] where Python raises. *)
Definition fdiv (x y : pyfloat) : pyfloat :=
  match py_truediv x y with
  | Return v => v
  | Raise _ => NaN
  end.

Definition nat_float (n : nat) : pyfloat := Fin (inject_Z (Z.of_nat n)).


(** The two conversions at the head of [__call__], on their own:
    line 92, [float(prediction.total_savings.replace('$', '').replace(',', ''))],
    and line 93, [float(example.get('target_savings', 0))]. *)
Definition parsed_savings (prediction : Prediction) : outcome pyfloat :=
  attr ← py_getattr prediction "total_savings";
  no_dollar ← py_replace attr "$";
  no_comma ← py_replace no_dollar ",";
  py_float no_comma.

Definition parsed_target (example : gmap string pyval) : outcome pyfloat :=
  py_float (dict_get example "target_savings" (VInt 0)).


(** The value that the [try] block computes from the parsed savings [s],
    the parsed target [t] and the rendering length [n], with the statements
    of lines 96-109 in their order. *)
Definition metric_value (th s t : pyfloat) (n : nat) : pyfloat :=
  let savings_accuracy := py_min2 (fdiv s (py_max2 t (Fin 1))) (Fin 1.0) in
  let token_efficiency :=
    fdiv (Fin 1.0) (fadd (Fin 1.0) (fdiv (nat_float n) (Fin 1000))) in
  let cost_efficiency :=
    fadd (fmul savings_accuracy (Fin 0.7)) (fmul token_efficiency (Fin 0.3)) in
  py_min2 (if fge s (fmul t th) then fadd cost_efficiency (Fin 0.2)
           else cost_efficiency)
          (Fin 1.0).

(** *** Sample inputs *)

Definition example_with_target (target : pyval) : gmap string pyval :=
  {[ "target_savings" := target ]}.

Definition prediction_with_savings (total_savings : pyval) (n : nat)
  : Prediction :=
  {| pred_fields := {[ "total_savings" := total_savings ]};
     pred_str_len := n |}.


(** ** Methods with effects *)

(** A computation over a state [S]: it returns or raises, and leaves a
    state behind in both cases. *)
Definition eff (S A : Type) : Type := S -> outcome A * S.

Definition eff_ret {S A : Type} (a : A) : eff S A := fun st => (Return a, st).

Definition eff_bind {S A B : Type} (m : eff S A) (f : A -> eff S B) : eff S B :=
  fun st =>
    match m st with
    | (Return a, st') => f a st'
    | (Raise e, st') => (Raise e, st')
    end.

Definition eff_raise {S A : Type} (e : pyexc) : eff S A :=
  fun st => (Raise e, st).

Definition eff_lift {S A : Type} (o : outcome A) : eff S A :=
  fun st => (o, st).

#[global] Instance eff_mret {S : Type} : MRet (eff S) := @eff_ret S.
#[global] Instance eff_mbind {S : Type} : MBind (eff S) :=
  fun A B f m => eff_bind m f.

(** ** [gepaPaymentOptimizer.py]: the mock dataset *)

Module Dataset.
(** The five seed scenarios, lines 122-168. *)
Definition scenarios : list (gmap string pyval) :=
  [ {[ "amount" := VInt 1000;
       "currency" := VStr "USD";
       "invoice_details" := VStr "Vendor invoice for software licensing";
       "query_cost" := VFloat (Fin 0.05);
       "user_balance" := VInt 5000;
       "urgency" := VStr "low";
       "target_savings" := VInt 50 ]};
    {[ "amount" := VInt 500;
       "currency" := VStr "USD";
       "invoice_details" := VStr "Marketing services invoice";
       "query_cost" := VFloat (Fin 0.03);
       "user_balance" := VInt 2000;
       "urgency" := VStr "medium";
       "target_savings" := VInt 25 ]};
    {[ "amount" := VInt 2000;
       "currency" := VStr "USD";
       "invoice_details" := VStr "Cloud infrastructure invoice";
       "query_cost" := VFloat (Fin 0.08);
       "user_balance" := VInt 10000;
       "urgency" := VStr "high";
       "target_savings" := VInt 100 ]};
    {[ "amount" := VInt 150;
       "currency" := VStr "USD";
       "invoice_details" := VStr "API usage invoice";
       "query_cost" := VFloat (Fin 0.02);
       "user_balance" := VInt 1000;
       "urgency" := VStr "low";
       "target_savings" := VInt 15 ]};
    {[ "amount" := VInt 3000;
       "currency" := VStr "USD";
       "invoice_details" := VStr "Enterprise software license";
       "query_cost" := VFloat (Fin 0.12);
       "user_balance" := VInt 15000;
       "urgency" := VStr "medium";
       "target_savings" := VInt 150 ]} ].

Section Generator.
(** The state of numpy's global generator, and
    [np.random.uniform(low, high)], which returns a draw and advances
    the state. *)
Variable rng : Type.
Variable uniform : Q -> Q -> rng -> Q * rng.

(** [d[key] *= np.random.uniform(low, high)]: the item is read, the
    draw is made, the product is stored. *)
Definition imul_uniform (d : gmap string pyval) (key : string)
    (low high : Q) : eff rng (gmap string pyval) :=
  fun g =>
    match d !! key with
    | None => (Raise (KeyError key), g)
    | Some v =>
        let '(u, g') := uniform low high g in
        match py_mul_float v (Fin u) with
        | Return v' => (Return (<[key := v']> d), g')
        | Raise e => (Raise e, g')
        end
    end.

(** One pass of the inner loop body, lines 173-177: the copy and its
    three updates. *)
Definition variation_of (scenario : gmap string pyval)
  : eff rng (gmap string pyval) :=
  let variation := scenario in
  variation ← imul_uniform variation "amount" 0.8 1.2;
  variation ← imul_uniform variation "query_cost" 0.9 1.1;
  variation ← imul_uniform variation "target_savings" 0.8 1.2;
  mret variation.

(** [for _ in range(n): ...; dataset.append(variation)] *)
Fixpoint variations (n : nat) (scenario : gmap string pyval)
    (dataset : list (gmap string pyval))
  : eff rng (list (gmap string pyval)) :=
  match n with
  | O => mret dataset
  | S k =>
      variation ← variation_of scenario;
      variations k scenario (dataset ++ [variation])
  end.

(** [for scenario in scenarios: for _ in range(20): ...] *)
Fixpoint for_scenarios (todo : list (gmap string pyval))
    (dataset : list (gmap string pyval))
  : eff rng (list (gmap string pyval)) :=
  match todo with
  | [] => mret dataset
  | scenario :: rest =>
      dataset ← variations 20 scenario dataset;
      for_scenarios rest dataset
  end.

Definition create_mock_payment_dataset
  : eff rng (list (gmap string pyval)) :=
  for_scenarios scenarios [].
End Generator.

(** The value of a numeric field, when it is a finite number. *)
Definition field_Q (d : gmap string pyval) (key : string) : option Q :=
  match d !! key with
  | Some v => match as_float v with
              | Some (Fin q) => Some q
              | _ => None
              end
  | None => None
  end.

(** [low * seed[key] <= variation[key] <= high * seed[key]] *)
Definition within (low high : Q) (seed variation : gmap string pyval)
    (key : string) : Prop :=
  exists x0 x : Q,
    field_Q seed key = Some x0 /\ field_Q variation key = Some x
    /\ (low * x0 <= x <= high * x0)%Q.

Definition perturbed_within_bounds (seed variation : gmap string pyval)
  : Prop :=
  within 0.8 1.2 seed variation "amount"
  /\ within 0.9 1.1 seed variation "query_cost"
  /\ within 0.8 1.2 seed variation "target_savings".

(** Every key but the three perturbed ones is as in the seed. *)
Definition other_fields_kept (seed variation : gmap string pyval) : Prop :=
  forall key : string,
    key <> "amount" -> key <> "query_cost" -> key <> "target_savings" ->
    variation !! key = seed !! key.

(** The three perturbed fields of a scenario are the numbers [a], [q]
    and [t]. *)
Definition numbers_at (seed : gmap string pyval) (a q t : pyfloat) : Prop :=
  exists va vq vt,
    seed !! "amount" = Some va /\ as_float va = Some a
    /\ seed !! "query_cost" = Some vq /\ as_float vq = Some q
    /\ seed !! "target_savings" = Some vt /\ as_float vt = Some t.

(** A generator for the examples: the state counts the draws, and the
    draws sweep the interval in steps of a quarter of its width. *)
Definition sweep (low high : Q) (g : nat) : Q * nat :=
  ((low + (high - low) * (inject_Z (Z.of_nat (g mod 5)) / 4))%Q, S g).
End Dataset.

(** ** HTTP, as the two clients see it *)

(** What [requests] hands back: the status line, and the decoded JSON body
    ([None] when the body is not JSON, so that [response.json()] raises). *)
Record Response : Type := {
  status_code : Z;
  reason : string;
  json_body : option pyval
}.

(** What the network does with the one request that a call sends. *)
Inductive net_reply : Type :=
| ReplyTimeout
| ReplyConnectionError
| ReplyOtherError
| ReplyResponse (r : Response).

(** A request on the wire. *)
Record http_request : Type := {
  req_method : string;
  req_url : string;
  req_api_key : string;
  req_json : option (gmap string pyval)
}.

(** Sending a request: it is recorded on the wire, then the reply decides
    between a response and one of the transport exceptions. *)
Definition send (reply : net_reply) (req : http_request)
  : eff (list http_request) Response :=
  fun wire =>
    (match reply with
     | ReplyResponse r => Return r
     | ReplyTimeout => Raise Timeout
     | ReplyConnectionError => Raise ConnectionError
     | ReplyOtherError => Raise OtherRequestError
     end, wire ++ [req]).

(** [response.raise_for_status()] *)
Definition raise_for_status (r : Response) : outcome unit :=
  if ((400 <=? status_code r) && (status_code r <? 600))%Z
  then Raise (HTTPError (status_code r) (reason r) (json_body r))
  else Return tt.

(** [response.json()] *)
Definition response_json (r : Response) : outcome pyval :=
  match json_body r with
  | Some v => Return v
  | None => Raise JSONDecodeError
  end.

(** [v.get(key, dflt)] on a value: only a [dict] has the method. *)
Definition py_get (v : pyval) (key : string) (dflt : pyval) : outcome pyval :=
  match v with
  | VDict d => Return (dict_get d key dflt)
  | _ => Raise AttributeError
  end.

(** [v[key]] for a string key: a [KeyError] on a dict without the key, a
    [TypeError] on anything that is not a dict. *)
Definition py_getitem (v : pyval) (key : string) : outcome pyval :=
  match v with
  | VDict d => match d !! key with
               | Some x => Return x
               | None => Raise (KeyError key)
               end
  | _ => Raise TypeError
  end.

Definition upper_char (c : ascii) : ascii :=
  let n := N_of_ascii c in
  if ((97 <=? n) && (n <=? 122))%N then ascii_of_N (n - 32) else c.

(** [s.upper()] *)
Fixpoint upper (s : string) : string :=
  match s with
  | EmptyString => EmptyString
  | String c rest => String (upper_char c) (upper rest)
  end.

Fixpoint drop_leading (c : ascii) (l : list ascii) : list ascii :=
  match l with
  | a :: rest => if Ascii.eqb a c then drop_leading c rest else l
  | [] => []
  end.

(** [s.rstrip(c)] for a one-character [c]. *)
Definition rstrip_char (c : ascii) (s : string) : string :=
  string_of_list_ascii
    (rev (drop_leading c (rev (list_ascii_of_string s)))).

(** [str(z)] for an integer, as f-strings render it. *)
Definition str_of_int (z : Z) : string := NilZero.string_of_int (Z.to_int z).

(** ** [onchain_agent_sdk.py]: [AIAgentClient] *)

Module AIAgentClient.

(** The attributes that [__init__] sets; the session carries the two
    headers, of which the API key is the one that varies. *)
Record t : Type := {
  api_key : string;
  base_url : string;
  timeout : Z
}.

Definition __init__ (api_key base_url : string) (timeout : Z) : t :=
  {| api_key := api_key;
     base_url := rstrip_char "/" base_url;
     timeout := timeout |}.

Definition default_base_url : string := "https://your-domain.com/api/v1".

Section Methods.
Variable self : t.
(** What the network answers to the request of the call, if one is sent. *)
Variable reply : net_reply.
(** [requests.utils.quote] *)
Variable quote : string -> string.

Definition request (method url : string) (data : option (gmap string pyval))
  : http_request :=
  {| req_method := method; req_url := url;
     req_api_key := api_key self; req_json := data |}.

(** The [try] block of [_make_request], lines 62-75. *)
Definition _make_request_try (url method : string)
    (data : option (gmap string pyval)) : eff (list http_request) pyval :=
  response ←
    (if String.eqb (upper method) "GET" then send reply (request "GET" url None)
     else if String.eqb (upper method) "POST"
          then send reply (request "POST" url data)
          else eff_raise
                 (ValueError (VStr ("Unsupported HTTP method: " +:+ method))));
  _ ← eff_lift (raise_for_status response);
  result ← eff_lift (response_json response);
  success ← eff_lift (py_get result "success" (VBool false));
  if negb (py_truthy success)
  then error ← eff_lift (py_get result "error" (VStr "Unknown API error"));
       eff_raise (ValueError error)
  else mret result.

(** The message that the [HTTPError] handler builds, lines 82-86: the inner
    bare [except] catches whatever goes wrong with the error body. *)
Definition http_error_message (status : Z) (reason : string)
    (body : option pyval) : pyval :=
  match body with
  | Some (VDict d) => dict_get d "error" (VStr ("HTTP " +:+ str_of_int status))
  | _ => VStr ("HTTP " +:+ str_of_int status +:+ ": " +:+ reason)
  end.

Definition _make_request (endpoint method : string)
    (data : option (gmap string pyval)) : eff (list http_request) pyval :=
  let url := if negb (String.prefix "http" endpoint)
             then base_url self +:+ endpoint
             else endpoint in
  fun wire =>
    match _make_request_try url method data wire with
    | (Raise Timeout, wire') =>
        (Raise (RequestException
                  "Request timeout: API did not respond in time"), wire')
    | (Raise ConnectionError, wire') =>
        (Raise (RequestException
                  "Connection error: Unable to connect to API"), wire')
    | (Raise (HTTPError status reason body), wire') =>
        (Raise (ValueError (http_error_message status reason body)), wire')
    | other => other
    end.

Definition optimize (prompt wallet_address provider max_cost : pyval)
  : eff (list http_request) pyval :=
  if negb (py_truthy prompt)
  then eff_raise (ValueError (VStr "prompt is required"))
  else if negb (py_truthy wallet_address)
  then eff_raise (ValueError (VStr "wallet_address is required"))
  else
    let data : gmap string pyval :=
      {[ "action" := VStr "optimize";
         "prompt" := prompt;
         "walletAddress" := wallet_address ]} in
    let data := if py_truthy provider
                then <["provider" := provider]> data else data in
    let data := match max_cost with
                | VNone => data
                | _ => <["maxCost" := max_cost]> data
                end in
    _make_request "" "POST" (Some data).

Definition chat (message wallet_address : pyval)
  : eff (list http_request) pyval :=
  if negb (py_truthy message)
  then eff_raise (ValueError (VStr "message is required"))
  else if negb (py_truthy wallet_address)
  then eff_raise (ValueError (VStr "wallet_address is required"))
  else
    let data : gmap string pyval :=
      {[ "action" := VStr "chat";
         "message" := message;
         "walletAddress" := wallet_address ]} in
    _make_request "" "POST" (Some data).

Definition connect_wallet (wallet_address signature : pyval)
  : eff (list http_request) pyval :=
  if negb (py_truthy wallet_address)
  then eff_raise (ValueError (VStr "wallet_address is required"))
  else
    let data : gmap string pyval :=
      {[ "action" := VStr "wallet";
         "walletAddress" := wallet_address ]} in
    let data := if py_truthy signature
                then <["signature" := signature]> data else data in
    _make_request "" "POST" (Some data).

(** [requests.utils.quote(v)]: text and bytes are quoted, anything else is
    a [TypeError]. *)
Definition py_quote (v : pyval) : outcome string :=
  match v with
  | VStr s | VBytes s => Return (quote s)
  | _ => Raise TypeError
  end.

Definition get_analytics (wallet_address : pyval)
  : eff (list http_request) pyval :=
  if negb (py_truthy wallet_address)
  then eff_raise (ValueError (VStr "wallet_address is required"))
  else
    quoted ← eff_lift (py_quote wallet_address);
    let endpoint := "?action=analytics&walletAddress=" +:+ quoted in
    _make_request endpoint "GET" None.

Definition get_providers : eff (list http_request) pyval :=
  _make_request "?action=providers" "GET" None.

Definition get_info : eff (list http_request) pyval :=
  _make_request "?action=info" "GET" None.
End Methods.
End AIAgentClient.

(** ** [quick-start.py]: [CostOptimizedAIAgent] *)

Module CostOptimizedAIAgent.

(** The object.  The three totals are Python numbers, the integer 0 at
    first and sums of JSON numbers later; the model keeps their value as a
    float and counts the calls in [Z]. *)
Record t : Type := {
  api_key : string;
  base_url : string;
  total_cost : pyfloat;
  total_saved : pyfloat;
  total_calls : Z
}.

Definition default_base_url : string := "https://your-domain.com/api/v1".

Definition __init__ (api_key base_url : string) : t :=
  {| api_key := api_key;
     base_url := base_url;
     total_cost := Fin 0;
     total_saved := Fin 0;
     total_calls := 0 |}.

Definition get_self : eff t t := fun self => (Return self, self).

Definition set_total_cost (x : pyfloat) : eff t unit :=
  fun self =>
    (Return tt,
     {| api_key := api_key self; base_url := base_url self;
        total_cost := x; total_saved := total_saved self;
        total_calls := total_calls self |}).

Definition set_total_saved (x : pyfloat) : eff t unit :=
  fun self =>
    (Return tt,
     {| api_key := api_key self; base_url := base_url self;
        total_cost := total_cost self; total_saved := x;
        total_calls := total_calls self |}).

Definition set_total_calls (n : Z) : eff t unit :=
  fun self =>
    (Return tt,
     {| api_key := api_key self; base_url := base_url self;
        total_cost := total_cost self; total_saved := total_saved self;
        total_calls := n |}).

(** [total + v] for a total that is a number: a number is added, anything
    else is a [TypeError]. *)
Definition add_number (total : pyfloat) (v : pyval) : outcome pyfloat :=
  match as_float v with
  | Some x => Return (fadd total x)
  | None => Raise TypeError
  end.

(** [requests.post(...)]: the response, or the transport exception, which
    [chat] does not handle. *)
Definition post (reply : net_reply) : outcome Response :=
  match reply with
  | ReplyResponse r => Return r
  | ReplyTimeout => Raise Timeout
  | ReplyConnectionError => Raise ConnectionError
  | ReplyOtherError => Raise OtherRequestError
  end.

(** [result['data'][key]] *)
Definition data_item (result : pyval) (key : string) : outcome pyval :=
  data ← py_getitem result "data";
  py_getitem data key.

Definition failed : pyval :=
  VDict {[ "error" := VStr "Failed to get response" ]}.

Definition chat (reply : net_reply) (message max_cost : pyval)
  : eff t pyval :=
  response ← eff_lift (post reply);
  if (status_code response =? 200)%Z
  then
    result ← eff_lift (response_json response);
    success ← eff_lift (py_getitem result "success");
    if py_truthy success
    then
      self ← get_self;
      cost ← eff_lift (data_item result "optimizedCost");
      sum ← eff_lift (add_number (total_cost self) cost);
      _ ← set_total_cost sum;
      self ← get_self;
      saved ← eff_lift (data_item result "savings");
      sum ← eff_lift (add_number (total_saved self) saved);
      _ ← set_total_saved sum;
      self ← get_self;
      _ ← set_total_calls (total_calls self + 1);
      message ← eff_lift (data_item result "optimizedResponse");
      cost ← eff_lift (data_item result "optimizedCost");
      saved ← eff_lift (data_item result "savings");
      provider ← eff_lift (data_item result "recommendedProvider");
      mret (VDict {[ "message" := message;
                     "cost" := cost;
                     "saved" := saved;
                     "provider" := provider ]})
    else mret failed
  else mret failed.

Definition get_savings_report (self : t) : outcome (gmap string pyval) :=
  let total_spent := fadd (total_cost self) (total_saved self) in
  savings_percentage ←
    (if fgt total_spent (Fin 0)
     then ratio ← py_truediv (total_saved self) total_spent;
          mret (VFloat (fmul ratio (Fin 100)))
     else mret (VInt 0));
  mret ({[ "total_calls" := VInt (total_calls self);
           "total_cost" := VFloat (total_cost self);
           "total_saved" := VFloat (total_saved self);
           "savings_percentage" := savings_percentage;
           "effective_cost" := VFloat (total_cost self) ]}
        : gmap string pyval).

(** A reply for the examples: status 200 and a complete success envelope. *)
Definition sample_data : gmap string pyval :=
  {[ "optimizedCost" := VFloat (Fin 0.012);
     "savings" := VFloat (Fin 0.008);
     "optimizedResponse" := VStr "ok";
     "recommendedProvider" := VStr "perplexity" ]}.

Definition sample_body : gmap string pyval :=
  {[ "success" := VBool true; "data" := VDict sample_data ]}.

Definition sample_success : Response :=
  {| status_code := 200; reason := "OK";
     json_body := Some (VDict sample_body) |}.

Definition sample_failure : Response :=
  {| status_code := 200; reason := "OK";
     json_body := Some (VDict {[ "success" := VBool false;
                                 "error" := VStr "bad wallet" ]}) |}.

Definition sample_agent : t := __init__ "oa_key" default_base_url.
End CostOptimizedAIAgent.

(** *** Vocabulary of the claims about the clients *)

(** An argument that is empty or missing: [None], the empty string, and
    whatever else tests false in [if not v]. *)
Definition empty_or_missing (v : pyval) : Prop := py_truthy v = false.

(** The failure envelope of the specification's example. *)
Definition bad_wallet_body : gmap string pyval :=
  {[ "success" := VBool false; "error" := VStr "bad wallet" ]}.

Definition bad_wallet_response : Response :=
  {| status_code := 200; reason := "OK";
     json_body := Some (VDict bad_wallet_body) |}.

Definition sample_client : AIAgentClient.t :=
  AIAgentClient.__init__ "oa_key" AIAgentClient.default_base_url 30.

(** ** [quick-start.py]: [batch_process] and the error test of [main] *)

Module Batch.

(** [for message in messages: result = self.chat(message, max_cost);
    results.append(result)], each message with the reply that the network
    gives to its request. *)
Fixpoint batch_loop (todo : list (pyval * net_reply)) (max_cost : pyval)
    (results : list pyval) : eff CostOptimizedAIAgent.t (list pyval) :=
  match todo with
  | [] => mret results
  | (message, reply) :: rest =>
      result ← CostOptimizedAIAgent.chat reply message max_cost;
      batch_loop rest max_cost (results ++ [result])
  end.

Definition batch_process (messages : list (pyval * net_reply))
    (max_cost_per_message : pyval)
  : eff CostOptimizedAIAgent.t (list pyval) :=
  batch_loop messages max_cost_per_message [].

(** ['error' in result], the test that [main] applies to a result. *)
Definition has_error (result : pyval) : bool :=
  match result with
  | VDict d => match d !! "error" with
               | Some _ => true
               | None => false
               end
  | _ => false
  end.

Definition succeeded (results : list pyval) : list pyval :=
  filter (fun result => has_error result = false) results.
End Batch.

(** * Properties *)

(** ** Arithmetic of the float model *)

#[global] Instance feq_equiv : Equivalence feq.
Proof.
  split.
  - intros [q| | |]; simpl; auto with qarith.
  - intros [a| | |] [b| | |]; simpl; auto with qarith.
  - intros [a| | |] [b| | |] [c| | |]; simpl; try tauto.
    intros H1 H2. now rewrite H1.
Qed.

#[global] Instance inf_of_sign_proper x : Proper (Qeq ==> feq) (fun b => inf_of_sign (b ?= x)%Q).
Proof. intros a b H. now rewrite H. Qed.

#[global] Instance fadd_proper : Proper (feq ==> feq ==> feq) fadd.
Proof.
  intros [a| | |] [a'| | |] Ha [b| | |] [b'| | |] Hb;
    simpl in *; try tauto.
  now rewrite Ha, Hb.
Qed.

#[global] Instance fmul_proper : Proper (feq ==> feq ==> feq) fmul.
Proof.
  intros [a| | |] [a'| | |] Ha [b| | |] [b'| | |] Hb;
    simpl in *; try tauto;
    try (rewrite Ha; reflexivity); try (rewrite Hb; reflexivity).
  now rewrite Ha, Hb.
Qed.

#[global] Instance flt_proper : Proper (feq ==> feq ==> eq) flt.
Proof.
  intros [a| | |] [a'| | |] Ha [b| | |] [b'| | |] Hb;
    simpl in *; try tauto.
  now rewrite Ha, Hb.
Qed.

#[global] Instance fle_proper : Proper (feq ==> feq ==> eq) fle.
Proof.
  intros [a| | |] [a'| | |] Ha [b| | |] [b'| | |] Hb;
    simpl in *; try tauto.
  now rewrite Ha, Hb.
Qed.

#[global] Instance py_min2_proper : Proper (feq ==> feq ==> feq) py_min2.
Proof.
  intros a a' Ha b b' Hb. unfold py_min2.
  rewrite (flt_proper _ _ Hb _ _ Ha). now destruct (flt b' a').
Qed.

#[global] Instance fdiv_proper : Proper (feq ==> feq ==> feq) fdiv.
Proof.
  intros [a| | |] [a'| | |] Ha [b| | |] [b'| | |] Hb;
    unfold fdiv, py_truediv; simpl in *; try tauto;
    try (rewrite Hb; destruct (Qeq_bool b' 0); simpl; try tauto;
         try reflexivity).
  all: try reflexivity; try (now rewrite Hb); now rewrite Ha, Hb.
Qed.




(** The divisor [max(target_savings, 1)] is never zero, whatever the target. *)
Lemma py_max2_one_nonzero t : fis_zero (py_max2 t (Fin 1)) = false.
Proof.
  destruct t as [q| | |]; try reflexivity.
  unfold py_max2, fgt, flt.
  destruct (Qle_bool 1 q) eqn:E; simpl; [|reflexivity].
  apply Qle_bool_iff in E.
  destruct (Qeq_bool q 0) eqn:Z; [|reflexivity].
  apply Qeq_bool_iff in Z. lra.
Qed.

Lemma nat_float_div_1000 n :
  py_truediv (nat_float n) (Fin 1000) = Return (Fin (inject_Z (Z.of_nat n) / 1000)).
Proof. reflexivity. Qed.

Lemma token_ratio_nonneg n : (0 <= inject_Z (Z.of_nat n) / 1000)%Q.
Proof.
  apply Qle_shift_div_l; [reflexivity|].
  rewrite Qmult_0_l. change 0%Q with (inject_Z 0). rewrite <- Zle_Qle. lia.
Qed.

(** The divisor [1.0 + token_count / 1000] is never zero. *)
Lemma token_divisor_nonzero n :
  fis_zero (fadd (Fin 1.0) (fdiv (nat_float n) (Fin 1000))) = false.
Proof.
  change (fdiv (nat_float n) (Fin 1000))
    with (Fin (inject_Z (Z.of_nat n) / 1000)).
  simpl. destruct (Qeq_bool _ 0) eqn:Z; [|reflexivity].
  apply Qeq_bool_iff in Z. pose proof (token_ratio_nonneg n). lra.
Qed.

(** ** The metric *)

Lemma bind_Return {A B : Type} (a : A) (f : A -> outcome B) :
  (Return a ≫= f) = f a.
Proof. reflexivity. Qed.

Lemma py_truediv_fdiv x y :
  fis_zero y = false -> py_truediv x y = Return (fdiv x y).
Proof. unfold fdiv, py_truediv. now intros ->. Qed.

Section MetricFacts.
Import CostAwareEfficiencyMetric.
Variable th : pyfloat.
Variable example : gmap string pyval.
Variable prediction : Prediction.

(** Once both conversions succeed, nothing in the [try] block can raise:
    it returns [metric_value]. *)
Lemma call_body_value s t :
  parsed_savings prediction = Return s ->
  parsed_target example = Return t ->
  call_body th example prediction
  = Return (metric_value th s t (pred_str_len prediction)).
Proof.
  unfold parsed_savings, parsed_target, call_body, metric_value.
  intros Hs Ht.
  destruct (py_getattr prediction "total_savings") as [attr|]; [|discriminate].
  rewrite !bind_Return in *.
  destruct (py_replace attr "$") as [v1|]; [|discriminate].
  rewrite !bind_Return in *.
  destruct (py_replace v1 ",") as [v2|]; [|discriminate].
  rewrite !bind_Return in *.
  rewrite Hs, Ht, !bind_Return.
  rewrite (py_truediv_fdiv s), bind_Return by apply py_max2_one_nonzero.
  fold (nat_float (pred_str_len prediction)).
  rewrite (py_truediv_fdiv (nat_float _)), bind_Return by reflexivity.
  rewrite (py_truediv_fdiv (Fin 1.0)), bind_Return
    by apply token_divisor_nonzero.
  reflexivity.
Qed.

End MetricFacts.


Lemma parsed_savings_str prediction raw :
  pred_fields prediction !! "total_savings" = Some (VStr raw) ->
  parsed_savings prediction
  = py_float (VStr (str_remove "," (str_remove "$" raw))).
Proof.
  intros H. unfold parsed_savings, py_getattr. now rewrite H.
Qed.



(** The two worked examples of the specification. *)
Example metric_full_score :
  CostAwareEfficiencyMetric.__call__ default_threshold
    (example_with_target (VInt 50)) (prediction_with_savings (VStr "50") 0)
  = Return (Fin 1.0).
Proof. vm_compute. reflexivity. Qed.

Example metric_non_numeric :
  CostAwareEfficiencyMetric.__call__ default_threshold
    (example_with_target (VInt 50)) (prediction_with_savings (VStr "N/A") 12)
  = Return (Fin 0.0).
Proof. vm_compute. reflexivity. Qed.

(** *** Bounds and monotonicity of the score *)





















(** Outside the numbers: [float()] also yields [nan], and with a [nan]
    target every score is [nan], which compares with nothing. *)
Remark metric_nan_target :
  CostAwareEfficiencyMetric.__call__ default_threshold
    (example_with_target (VFloat NaN))
    (prediction_with_savings (VStr "$10") 80) = Return NaN
  /\ fle NaN NaN = false.
Proof. split; vm_compute; reflexivity. Qed.

(** ** The mock dataset *)

Section DatasetFacts.
Import Dataset.
Variable rng : Type.
Variable uniform : Q -> Q -> rng -> Q * rng.

Local Abbreviation dict := (gmap string pyval).
Local Abbreviation variation_of := (Dataset.variation_of rng uniform).
Local Abbreviation variations := (Dataset.variations rng uniform).
Local Abbreviation for_scenarios := (Dataset.for_scenarios rng uniform).

Lemma eff_bind_Return {S A B : Type} (m : eff S A) (f : A -> eff S B)
    st a st' :
  m st = (Return a, st') -> (m ≫= f) st = f a st'.
Proof.
  intros H. unfold mbind, eff_mbind, eff_bind. now rewrite H.
Qed.

Lemma imul_uniform_number (d : dict) key low high g v x :
  d !! key = Some v -> as_float v = Some x ->
  imul_uniform rng uniform d key low high g
  = (Return (<[key := VFloat (fmul x (Fin (uniform low high g).1))]> d),
     (uniform low high g).2).
Proof.
  intros Hv Hx. unfold imul_uniform, py_mul_float. rewrite Hv, Hx.
  now destruct (uniform low high g).
Qed.

(** One variation: it always returns, and is the seed with its three
    numeric fields multiplied by three successive draws. *)
Lemma variation_of_value (seed : dict) a q t g :
  numbers_at seed a q t ->
  exists ua uq ut g',
    variation_of seed g
    = (Return (<["target_savings" := VFloat (fmul t (Fin ut))]>
                 (<["query_cost" := VFloat (fmul q (Fin uq))]>
                    (<["amount" := VFloat (fmul a (Fin ua))]> seed))), g')
    /\ (exists g1, ua = (uniform 0.8 1.2 g1).1)
    /\ (exists g2, uq = (uniform 0.9 1.1 g2).1)
    /\ (exists g3, ut = (uniform 0.8 1.2 g3).1).
Proof.
  intros (va & vq & vt & Ha & Hfa & Hq & Hfq & Ht & Hft).
  unfold Dataset.variation_of.
  do 4 eexists. split; [|repeat split; eexists; reflexivity].
  erewrite eff_bind_Return
    by (eapply imul_uniform_number; [exact Ha|exact Hfa]).
  erewrite eff_bind_Return
    by (eapply imul_uniform_number;
        [rewrite lookup_insert_ne by done; exact Hq|exact Hfq]).
  erewrite eff_bind_Return
    by (eapply imul_uniform_number;
        [rewrite !lookup_insert_ne by done; exact Ht|exact Hft]).
  reflexivity.
Qed.

(** The loops, for any property [P] that each variation of a seed has. *)
Lemma variations_spec (P : dict -> Prop) n (seed : dict) :
  (forall g, exists v g', variation_of seed g = (Return v, g') /\ P v) ->
  forall dataset g,
  exists chunk g',
    variations n seed dataset g = (Return (dataset ++ chunk), g')
    /\ length chunk = n /\ Forall P chunk.
Proof.
  intros Hone. induction n as [|n IH]; intros dataset g.
  - exists [], g. simpl. rewrite app_nil_r. repeat split. constructor.
  - destruct (Hone g) as (v & g1 & Hv & HP).
    destruct (IH (dataset ++ [v]) g1) as (chunk & g' & Hrec & Hlen & Hall).
    exists (v :: chunk), g'. simpl.
    rewrite (eff_bind_Return _ _ _ _ _ Hv), Hrec, <- app_assoc.
    repeat split; [simpl; lia | now constructor].
Qed.

Lemma for_scenarios_spec (P : dict -> dict -> Prop) (seeds : list dict) :
  Forall (fun seed => forall g, exists v g',
              variation_of seed g = (Return v, g') /\ P seed v) seeds ->
  forall dataset g,
  exists chunks g',
    for_scenarios seeds dataset g = (Return (dataset ++ concat chunks), g')
    /\ Forall2 (fun seed chunk => length chunk = 20%nat
                                  /\ Forall (P seed) chunk) seeds chunks.
Proof.
  induction 1 as [|seed seeds Hseed _ IH]; intros dataset g.
  - exists [], g. simpl. rewrite app_nil_r. split; constructor.
  - destruct (variations_spec (P seed) 20 seed Hseed dataset g)
      as (chunk & g1 & Hchunk & Hlen & Hall).
    destruct (IH (dataset ++ chunk) g1) as (chunks & g' & Hrec & Hrest).
    exists (chunk :: chunks), g'. split.
    + cbn [Dataset.for_scenarios].
      rewrite (eff_bind_Return _ _ _ _ _ Hchunk), Hrec.
      now rewrite <- app_assoc.
    + constructor; [split; assumption | exact Hrest].
Qed.

(** Where the [i]-th element of the concatenated chunks comes from. *)
Lemma chunks_lookup {A B : Type} (P : A -> B -> Prop) (k : nat)
    (seeds : list A) (chunks : list (list B)) :
  (0 < k)%nat ->
  Forall2 (fun seed chunk => length chunk = k /\ Forall (P seed) chunk)
          seeds chunks ->
  length (concat chunks) = (k * length seeds)%nat
  /\ forall i v, concat chunks !! i = Some v ->
                 exists seed, seeds !! (i / k)%nat = Some seed /\ P seed v.
Proof.
  intros Hk. induction 1 as [|seed chunk seeds chunks [Hlen Hall] _ [IHl IH]].
  - split; [simpl; lia | intros i v Hi; discriminate].
  - split.
    + simpl. rewrite length_app, IHl, Hlen. lia.
    + intros i v Hi. simpl in Hi.
      destruct (Nat.lt_ge_cases i k) as [Hlt | Hge].
      * rewrite lookup_app_l in Hi by lia.
        exists seed. rewrite Nat.div_small by exact Hlt. split; [reflexivity|].
        rewrite Forall_forall in Hall. apply Hall.
        eapply list_elem_of_lookup_2, Hi.
      * rewrite lookup_app_r in Hi by lia. rewrite Hlen in Hi.
        destruct (IH _ _ Hi) as (s & Hs & HP). exists s. split; [|exact HP].
        replace i with ((i - k) + 1 * k)%nat at 1 by lia.
        rewrite Nat.div_add by lia.
        replace ((i - k) / k + 1)%nat with (S ((i - k) / k)) by lia.
        exact Hs.
Qed.

(** The five seeds have numbers in their three perturbed fields. *)
Lemma scenarios_numbers :
  Forall (fun seed => exists a q t : Q,
              numbers_at seed (Fin a) (Fin q) (Fin t)
              /\ (0 <= a)%Q /\ (0 <= q)%Q /\ (0 <= t)%Q) scenarios.
Proof.
  unfold scenarios.
  repeat constructor;
    (eexists _, _, _; split;
     [ unfold numbers_at; eexists _, _, _;
       repeat split; vm_compute; reflexivity
     | repeat split; vm_compute; discriminate ]).
Qed.
End DatasetFacts.

Section DatasetClaims.
Import Dataset.
Variable rng : Type.
Variable uniform : Q -> Q -> rng -> Q * rng.

Lemma variation_keeps_other_fields (seed : gmap string pyval) a q t :
  numbers_at seed a q t ->
  forall g, exists v g',
    variation_of rng uniform seed g = (Return v, g')
    /\ other_fields_kept seed v.
Proof.
  intros Hseed g.
  destruct (variation_of_value rng uniform seed a q t g Hseed)
    as (ua & uq & ut & g' & Hv & _).
  eexists _, g'. split; [exact Hv|].
  intros key Ha Hq Ht. now rewrite !lookup_insert_ne by done.
Qed.

(** C6.  Whatever the random draws, the generator returns a list of exactly
    100 scenarios; the scenario at index [i] is a variant of seed number
    [i / 20], so the variants come in runs of 20 in seed order; and a
    variant has its seed's [currency], [invoice_details], [user_balance] and
    [urgency], and more generally its seed's value under every key other
    than [amount], [query_cost] and [target_savings]. *)
Theorem dataset_shape (g : rng) :
  exists dataset g',
    create_mock_payment_dataset rng uniform g = (Return dataset, g')
    /\ length dataset = 100%nat
    /\ forall i : nat, (i < 100)%nat ->
       exists seed variation,
         scenarios !! (i / 20)%nat = Some seed
         /\ dataset !! i = Some variation
         /\ variation !! "currency" = seed !! "currency"
         /\ variation !! "invoice_details" = seed !! "invoice_details"
         /\ variation !! "user_balance" = seed !! "user_balance"
         /\ variation !! "urgency" = seed !! "urgency"
         /\ other_fields_kept seed variation.
Proof.
  destruct (for_scenarios_spec rng uniform other_fields_kept scenarios)
    with (dataset := @nil (gmap string pyval)) (g := g)
    as (chunks & g' & Hrun & Hchunks).
  { eapply Forall_impl; [apply scenarios_numbers|].
    intros seed (a & q & t & Hn & _). cbn beta.
    now apply (variation_keeps_other_fields seed (Fin a) (Fin q) (Fin t)). }
  destruct (chunks_lookup other_fields_kept 20 _ _ ltac:(lia) Hchunks)
    as [Hlen Hlook].
  exists (concat chunks), g'. split; [exact Hrun|].
  split; [rewrite Hlen; reflexivity|].
  intros i Hi.
  destruct (lookup_lt_is_Some_2 (concat chunks) i) as [v Hv].
  { rewrite Hlen. simpl. exact Hi. }
  destruct (Hlook i v Hv) as (seed & Hseed & Hkept).
  exists seed, v. repeat split; try assumption; now apply Hkept.
Qed.

Hypothesis uniform_range :
  forall (low high : Q) (g : rng),
    (low <= high)%Q -> (low <= (uniform low high g).1 <= high)%Q.

Lemma scaled_within (low high x0 u : Q) :
  (0 <= x0)%Q -> (low <= u <= high)%Q ->
  (low * x0 <= x0 * u <= high * x0)%Q.
Proof. intros H0 [Hl Hh]. split; nra. Qed.

Lemma variation_within_bounds (seed : gmap string pyval) (a q t : Q) :
  numbers_at seed (Fin a) (Fin q) (Fin t) ->
  (0 <= a)%Q -> (0 <= q)%Q -> (0 <= t)%Q ->
  forall g, exists v g',
    variation_of rng uniform seed g = (Return v, g')
    /\ perturbed_within_bounds seed v.
Proof.
  intros Hseed Ha Hq Ht g.
  destruct (variation_of_value rng uniform seed _ _ _ g Hseed)
    as (ua & uq & ut & g' & Hv & (g1 & ->) & (g2 & ->) & (g3 & ->)).
  destruct Hseed as (va & vq & vt & Hla & Hfa & Hlq & Hfq & Hlt & Hft).
  eexists _, g'. split; [exact Hv|].
  split; [|split].
  - exists a, (a * (uniform 0.8 1.2 g1).1)%Q. unfold field_Q.
    rewrite Hla, Hfa, !lookup_insert_ne, lookup_insert_eq by done.
    split; [reflexivity|]. split; [reflexivity|].
    apply scaled_within; [assumption|]. apply uniform_range; lra.
  - exists q, (q * (uniform 0.9 1.1 g2).1)%Q. unfold field_Q.
    rewrite Hlq, Hfq, !lookup_insert_ne, lookup_insert_eq by done.
    split; [reflexivity|]. split; [reflexivity|].
    apply scaled_within; [assumption|]. apply uniform_range; lra.
  - exists t, (t * (uniform 0.8 1.2 g3).1)%Q. unfold field_Q.
    rewrite Hlt, Hft, lookup_insert_eq.
    split; [reflexivity|]. split; [reflexivity|].
    apply scaled_within; [assumption|]. apply uniform_range; lra.
Qed.

(** C5.  When every draw of [uniform(low, high)] lies between [low] and
    [high], the generator returns, and each scenario [i] of the result has
    its [amount] within 0.8 and 1.2 times, its [query_cost] within 0.9 and
    1.1 times, and its [target_savings] within 0.8 and 1.2 times the value
    in its seed, which is seed number [i / 20]. *)
Theorem dataset_within_bounds (g : rng) :
  exists dataset g',
    create_mock_payment_dataset rng uniform g = (Return dataset, g')
    /\ forall (i : nat) variation,
         dataset !! i = Some variation ->
         exists seed,
           scenarios !! (i / 20)%nat = Some seed
           /\ within 0.8 1.2 seed variation "amount"
           /\ within 0.9 1.1 seed variation "query_cost"
           /\ within 0.8 1.2 seed variation "target_savings".
Proof.
  destruct (for_scenarios_spec rng uniform perturbed_within_bounds scenarios)
    with (dataset := @nil (gmap string pyval)) (g := g)
    as (chunks & g' & Hrun & Hchunks).
  { eapply Forall_impl; [apply scenarios_numbers|].
    intros seed (a & q & t & Hn & Ha & Hq & Ht). cbn beta.
    now apply (variation_within_bounds seed a q t). }
  destruct (chunks_lookup perturbed_within_bounds 20 _ _ ltac:(lia) Hchunks)
    as [_ Hlook].
  exists (concat chunks), g'. split; [exact Hrun|].
  intros i v Hv. destruct (Hlook i v Hv) as (seed & Hseed & Hb).
  exists seed. split; [exact Hseed | exact Hb].
Qed.
End DatasetClaims.

Lemma sweep_range (low high : Q) (g : nat) :
  (low <= high)%Q -> (low <= (Dataset.sweep low high g).1 <= high)%Q.
Proof.
  intros H. unfold Dataset.sweep. cbn [fst].
  set (k := inject_Z (Z.of_nat (g mod 5))).
  assert (0 <= k <= 4)%Q as [Hk0 Hk4].
  { unfold k. pose proof (Nat.mod_upper_bound g 5 ltac:(lia)).
    split.
    - change 0%Q with (inject_Z 0). rewrite <- Zle_Qle. lia.
    - change 4%Q with (inject_Z 4). rewrite <- Zle_Qle. lia. }
  assert (k / 4 == k * (1 # 4))%Q as -> by reflexivity.
  split; nra.
Qed.

Lemma dataset_within_bounds_witness :
  exists dataset g',
    Dataset.create_mock_payment_dataset nat Dataset.sweep 0%nat
    = (Return dataset, g')
    /\ forall (i : nat) variation,
         dataset !! i = Some variation ->
         exists seed,
           Dataset.scenarios !! (i / 20)%nat = Some seed
           /\ Dataset.within 0.8 1.2 seed variation "amount"
           /\ Dataset.within 0.9 1.1 seed variation "query_cost"
           /\ Dataset.within 0.8 1.2 seed variation "target_savings".
Proof.
  apply (dataset_within_bounds nat Dataset.sweep sweep_range 0%nat).
Defined.

(** ** The SDK client *)

Section ClientFacts.
Import AIAgentClient.
Variable self : AIAgentClient.t.
Variable quote : string -> string.

Lemma eff_lift_bind {S A B : Type} (o : outcome A) (f : A -> eff S B) st :
  (eff_lift o ≫= f) st = match o with
                         | Return a => f a st
                         | Raise e => (Raise e, st)
                         end.
Proof. now destruct o. Qed.

(** A 2xx response passes [raise_for_status]. *)
Lemma raise_for_status_2xx r :
  (200 <= status_code r < 300)%Z -> raise_for_status r = Return tt.
Proof.
  intros H. unfold raise_for_status.
  replace (400 <=? status_code r)%Z with false by (symmetry; lia).
  reflexivity.
Qed.

(** What the [try] block does with a 2xx failure envelope, once the
    response is in. *)
Lemma failure_envelope_after_send r d url method data wire :
  (200 <= status_code r < 300)%Z ->
  json_body r = Some (VDict d) ->
  d !! "success" = Some (VBool false) ->
  upper method = "GET" \/ upper method = "POST" ->
  exists wire',
    _make_request_try self (ReplyResponse r) url method data wire
    = (Raise (ValueError (default (VStr "Unknown API error") (d !! "error"))),
       wire').
Proof.
  intros Hst Hbody Hsucc Hm. unfold _make_request_try.
  assert (Hsend : exists req,
    (if String.eqb (upper method) "GET"
     then send (ReplyResponse r) (request self "GET" url None)
     else if String.eqb (upper method) "POST"
          then send (ReplyResponse r) (request self "POST" url data)
          else eff_raise
                 (ValueError (VStr ("Unsupported HTTP method: " +:+ method))))
      wire = (Return r, wire ++ [req])).
  { destruct Hm as [-> | ->]; eexists; reflexivity. }
  destruct Hsend as (req & Hsend).
  exists (wire ++ [req]).
  rewrite (eff_bind_Return _ _ _ _ _ Hsend). cbv beta.
  rewrite eff_lift_bind, (raise_for_status_2xx r Hst). cbv beta iota.
  rewrite eff_lift_bind. unfold response_json. rewrite Hbody. cbv beta iota.
  rewrite eff_lift_bind. unfold py_get, dict_get at 1. rewrite Hsucc.
  cbv beta iota. cbn [default from_option id py_truthy negb].
  rewrite eff_lift_bind. reflexivity.
Qed.

Lemma make_request_failure_envelope r d endpoint method data wire :
  (200 <= status_code r < 300)%Z ->
  json_body r = Some (VDict d) ->
  d !! "success" = Some (VBool false) ->
  upper method = "GET" \/ upper method = "POST" ->
  exists wire',
    _make_request self (ReplyResponse r) endpoint method data wire
    = (Raise (ValueError (default (VStr "Unknown API error") (d !! "error"))),
       wire').
Proof.
  intros Hst Hbody Hsucc Hm. unfold _make_request.
  set (url := if negb (String.prefix "http" endpoint)
              then base_url self +:+ endpoint else endpoint).
  destruct (failure_envelope_after_send r d url method data wire
              Hst Hbody Hsucc Hm) as (wire' & ->).
  now exists wire'.
Qed.
End ClientFacts.

(** C7.  Let the response have a 2xx status and a JSON object [d] with
    [success] false, and let [error] be [d]'s [error] field, or
    ['Unknown API error'] when [d] has none.  Then [_make_request] (with a
    method it supports, so that a request is sent at all) raises
    [ValueError(error)], and so do [optimize], [chat], [connect_wallet],
    [get_analytics], [get_providers] and [get_info] whenever their required
    arguments pass the checks. *)
Theorem failure_envelope_raises (self : AIAgentClient.t)
    (quote : string -> string) (r : Response) (d : gmap string pyval) :
  (200 <= status_code r < 300)%Z ->
  json_body r = Some (VDict d) ->
  d !! "success" = Some (VBool false) ->
  let error := default (VStr "Unknown API error") (d !! "error") in
  let reply := ReplyResponse r in
  (forall endpoint method data wire,
      upper method = "GET" \/ upper method = "POST" ->
      exists wire',
        AIAgentClient._make_request self reply endpoint method data wire
        = (Raise (ValueError error), wire'))
  /\ (forall prompt wallet_address provider max_cost wire,
         py_truthy prompt = true -> py_truthy wallet_address = true ->
         exists wire',
           AIAgentClient.optimize self reply prompt wallet_address provider
             max_cost wire = (Raise (ValueError error), wire'))
  /\ (forall message wallet_address wire,
         py_truthy message = true -> py_truthy wallet_address = true ->
         exists wire',
           AIAgentClient.chat self reply message wallet_address wire
           = (Raise (ValueError error), wire'))
  /\ (forall wallet_address signature wire,
         py_truthy wallet_address = true ->
         exists wire',
           AIAgentClient.connect_wallet self reply wallet_address signature wire
           = (Raise (ValueError error), wire'))
  /\ (forall (address : string) wire,
         address <> "" ->
         exists wire',
           AIAgentClient.get_analytics self reply quote (VStr address) wire
           = (Raise (ValueError error), wire'))
  /\ (forall wire, exists wire',
         AIAgentClient.get_providers self reply wire
         = (Raise (ValueError error), wire'))
  /\ (forall wire, exists wire',
         AIAgentClient.get_info self reply wire
         = (Raise (ValueError error), wire')).
Proof.
  intros Hst Hbody Hsucc error reply.
  assert (Hreq := fun endpoint method data wire =>
            make_request_failure_envelope self r d endpoint method data wire
              Hst Hbody Hsucc).
  repeat split.
  - exact Hreq.
  - intros prompt wallet provider max_cost wire Hp Hw.
    unfold AIAgentClient.optimize. rewrite Hp, Hw. cbn [negb].
    apply Hreq. now right.
  - intros message wallet wire Hm Hw.
    unfold AIAgentClient.chat. rewrite Hm, Hw. cbn [negb].
    apply Hreq. now right.
  - intros wallet signature wire Hw.
    unfold AIAgentClient.connect_wallet. rewrite Hw. cbn [negb].
    apply Hreq. now right.
  - intros address wire Hne.
    unfold AIAgentClient.get_analytics.
    assert (py_truthy (VStr address) = true) as ->.
    { destruct address; [congruence | reflexivity]. }
    cbn [negb]. rewrite eff_lift_bind. cbn [AIAgentClient.py_quote].
    apply Hreq. now left.
  - intros wire. apply Hreq. now left.
  - intros wire. apply Hreq. now left.
Qed.

Lemma failure_envelope_raises_witness :
  exists wire',
    AIAgentClient.chat sample_client (ReplyResponse bad_wallet_response)
      (VStr "Hello") (VStr "0x742d") []
    = (Raise (ValueError (VStr "bad wallet")), wire').
Proof.
  destruct (failure_envelope_raises sample_client (fun s => s)
              bad_wallet_response bad_wallet_body)
    as (_ & _ & Hchat & _).
  - simpl. lia.
  - reflexivity.
  - vm_compute. reflexivity.
  - apply (Hchat (VStr "Hello") (VStr "0x742d") []); reflexivity.
Defined.

(** C8.  When the prompt (for [chat], the message) or the wallet address is
    empty or missing, [optimize] and [chat] raise a [ValueError] whose
    message names a parameter that is empty or missing, and the wire is as
    it was: no request is sent, whatever the network would have answered. *)
Theorem required_parameters_checked (self : AIAgentClient.t)
    (reply : net_reply) (text wallet_address provider max_cost : pyval)
    (wire : list http_request) :
  empty_or_missing text \/ empty_or_missing wallet_address ->
  (exists name,
      AIAgentClient.optimize self reply text wallet_address provider max_cost
        wire = (Raise (ValueError (VStr (name +:+ " is required"))), wire)
      /\ (name = "prompt" /\ empty_or_missing text
          \/ name = "wallet_address" /\ empty_or_missing wallet_address))
  /\ (exists name,
         AIAgentClient.chat self reply text wallet_address wire
         = (Raise (ValueError (VStr (name +:+ " is required"))), wire)
         /\ (name = "message" /\ empty_or_missing text
             \/ name = "wallet_address" /\ empty_or_missing wallet_address)).
Proof.
  unfold empty_or_missing.
  intros H. unfold AIAgentClient.optimize, AIAgentClient.chat.
  destruct (py_truthy text) eqn:Ht.
  - destruct H as [H | Hw]; [discriminate|]. rewrite Hw.
    split; exists "wallet_address"; (split; [reflexivity | now right]).
  - split; [exists "prompt" | exists "message"];
      (split; [reflexivity | now left]).
Qed.

Lemma required_parameters_checked_witness :
  (exists name,
      AIAgentClient.optimize sample_client ReplyTimeout (VStr "")
        (VStr "0x742d") VNone VNone []
      = (Raise (ValueError (VStr (name +:+ " is required"))), [])
      /\ (name = "prompt" /\ empty_or_missing (VStr "")
          \/ name = "wallet_address" /\ empty_or_missing (VStr "0x742d")))
  /\ (exists name,
         AIAgentClient.chat sample_client ReplyTimeout (VStr "")
           (VStr "0x742d") []
         = (Raise (ValueError (VStr (name +:+ " is required"))), [])
         /\ (name = "message" /\ empty_or_missing (VStr "")
             \/ name = "wallet_address" /\ empty_or_missing (VStr "0x742d"))).
Proof.
  apply (required_parameters_checked sample_client ReplyTimeout (VStr "")
           (VStr "0x742d") VNone VNone []).
  left. reflexivity.
Defined.

(** ** The quick-start agent *)

Section AgentFacts.
Import CostOptimizedAIAgent.





End AgentFacts.






(** On a freshly constructed agent the report is all zeros. *)
Lemma fresh_agent_report key url :
  exists report,
    CostOptimizedAIAgent.get_savings_report
      (CostOptimizedAIAgent.__init__ key url) = Return report
    /\ report !! "savings_percentage" = Some (VInt 0)
    /\ report !! "total_calls" = Some (VInt 0).
Proof.
  eexists. split; [reflexivity|]. split; reflexivity.
Qed.

(** Outside the finite totals: an infinite [total_saved] makes the
    percentage [inf / inf * 100], which is [nan]. *)
Remark savings_report_infinite_saved :
  exists report,
    CostOptimizedAIAgent.get_savings_report
      {| CostOptimizedAIAgent.api_key := "oa_key";
         CostOptimizedAIAgent.base_url := CostOptimizedAIAgent.default_base_url;
         CostOptimizedAIAgent.total_cost := Fin 0;
         CostOptimizedAIAgent.total_saved := PInf;
         CostOptimizedAIAgent.total_calls := 1 |} = Return report
    /\ report !! "savings_percentage" = Some (VFloat NaN).
Proof. eexists. split; reflexivity. Qed.

(** * Further properties *)

(** ** The metric: what can escape, and what the score depends on *)

Section MetricOutcomes.
Import CostAwareEfficiencyMetric.
Variable th : pyfloat.
Variable example : gmap string pyval.
Variable prediction : Prediction.

(** The [try] block fails exactly where one of the two conversions fails,
    with that exception. *)
Lemma call_body_cases :
  call_body th example prediction
  = match parsed_savings prediction with
    | Raise e => Raise e
    | Return s =>
        match parsed_target example with
        | Raise e => Raise e
        | Return t => Return (metric_value th s t (pred_str_len prediction))
        end
    end.
Proof.
  destruct (parsed_savings prediction) as [s|e] eqn:Hs.
  - destruct (parsed_target example) as [t|e] eqn:Ht.
    + now apply call_body_value.
    + revert Hs Ht. unfold parsed_savings, parsed_target, call_body.
      destruct (py_getattr prediction "total_savings") as [attr|];
        [|discriminate].
      rewrite !bind_Return.
      destruct (py_replace attr "$") as [v1|]; [|discriminate].
      rewrite !bind_Return.
      destruct (py_replace v1 ",") as [v2|]; [|discriminate].
      rewrite !bind_Return.
      now intros -> ->.
  - revert Hs. unfold parsed_savings, call_body.
    destruct (py_getattr prediction "total_savings") as [attr|];
      [|now intros [= ->]].
    rewrite !bind_Return.
    destruct (py_replace attr "$") as [v1|]; [|now intros [= ->]].
    rewrite !bind_Return.
    destruct (py_replace v1 ",") as [v2|]; [|now intros [= ->]].
    rewrite !bind_Return.
    now intros ->.
Qed.

Lemma parsed_savings_exceptions e :
  parsed_savings prediction = Raise e ->
  e = AttributeError \/ e = TypeError \/ exists arg, e = ValueError arg.
Proof.
  unfold parsed_savings, py_getattr.
  destruct (pred_fields prediction !! "total_savings") as [attr|];
    [|intros [= <-]; now left].
  rewrite bind_Return. unfold py_replace at 2.
  destruct attr; try (intros [= <-]; tauto).
  rewrite !bind_Return. cbn [py_replace]. rewrite bind_Return.
  unfold py_float. destruct (float_of_string _); [discriminate|].
  intros [= <-]. right. right. eauto.
Qed.

End MetricOutcomes.










Lemma str_remove_app c a b :
  str_remove c (a +:+ b) = str_remove c a +:+ str_remove c b.
Proof.
  induction a as [|x a IH]; [reflexivity|].
  simpl. destruct (Ascii.eqb x c); simpl; now rewrite IH.
Qed.

Lemma str_remove_insert c a b :
  str_remove c (a +:+ String c b) = str_remove c (a +:+ b).
Proof.
  rewrite !str_remove_app. simpl. now rewrite Ascii.eqb_refl.
Qed.

Lemma str_remove_comm c1 c2 s :
  str_remove c1 (str_remove c2 s) = str_remove c2 (str_remove c1 s).
Proof.
  induction s as [|x s IH]; [reflexivity|].
  cbn [str_remove].
  destruct (Ascii.eqb x c2) eqn:E2, (Ascii.eqb x c1) eqn:E1;
    cbn [str_remove]; rewrite ?E1, ?E2, ?IH; reflexivity.
Qed.

(** X4.  A dollar sign or a comma is ignored wherever it stands in
    [total_savings]: inserting one anywhere in the text changes neither the
    parsed savings nor whether parsing fails. *)
Theorem savings_ignore_dollar_and_comma p1 p2 (a b : string) (c : ascii) :
  c = "$"%char \/ c = ","%char ->
  pred_fields p1 !! "total_savings" = Some (VStr (a +:+ String c b)) ->
  pred_fields p2 !! "total_savings" = Some (VStr (a +:+ b)) ->
  parsed_savings p1 = parsed_savings p2.
Proof.
  intros Hc H1 H2.
  rewrite (parsed_savings_str _ _ H1), (parsed_savings_str _ _ H2).
  destruct Hc as [-> | ->].
  - now rewrite str_remove_insert.
  - now rewrite (str_remove_comm "," "$"), str_remove_insert,
      (str_remove_comm "$" ",").
Qed.

Lemma savings_ignore_dollar_and_comma_witness :
  parsed_savings (prediction_with_savings (VStr "1,250") 40)
  = parsed_savings (prediction_with_savings (VStr "1250") 40).
Proof.
  apply (savings_ignore_dollar_and_comma
           (prediction_with_savings (VStr "1,250") 40)
           (prediction_with_savings (VStr "1250") 40) "1" "250" ",").
  - now right.
  - vm_compute. reflexivity.
  - vm_compute. reflexivity.
Defined.




(** ** The dataset: ranges, keys, and its use with the metric *)

Section DatasetElements.
Import Dataset.
Variable rng : Type.
Variable uniform : Q -> Q -> rng -> Q * rng.
Hypothesis uniform_range :
  forall (low high : Q) (g : rng),
    (low <= high)%Q -> (low <= (uniform low high g).1 <= high)%Q.

Lemma variation_derived (seed : gmap string pyval) (a q t : Q) :
  numbers_at seed (Fin a) (Fin q) (Fin t) ->
  (0 <= a)%Q -> (0 <= q)%Q -> (0 <= t)%Q ->
  forall g, exists v g',
    variation_of rng uniform seed g = (Return v, g')
    /\ perturbed_within_bounds seed v /\ other_fields_kept seed v.
Proof.
  intros Hseed Ha Hq Ht g.
  destruct (variation_within_bounds rng uniform uniform_range seed a q t
              Hseed Ha Hq Ht g) as (v & g' & Hv & Hb).
  destruct (variation_keeps_other_fields rng uniform seed _ _ _ Hseed g)
    as (v' & g'' & Hv' & Hk).
  rewrite Hv in Hv'. injection Hv' as <- <-.
  exists v, g'. auto.
Qed.

(** Every element of the result, with the seed it comes from. *)
Lemma dataset_elements (g : rng) :
  exists dataset g',
    create_mock_payment_dataset rng uniform g = (Return dataset, g')
    /\ forall (i : nat) variation,
         dataset !! i = Some variation ->
         exists seed,
           scenarios !! (i / 20)%nat = Some seed
           /\ perturbed_within_bounds seed variation
           /\ other_fields_kept seed variation.
Proof.
  destruct (for_scenarios_spec rng uniform
              (fun seed v => perturbed_within_bounds seed v
                             /\ other_fields_kept seed v) scenarios)
    with (dataset := @nil (gmap string pyval)) (g := g)
    as (chunks & g' & Hrun & Hchunks).
  { eapply Forall_impl; [apply scenarios_numbers|].
    intros seed (a & q & t & Hn & Ha & Hq & Ht). cbn beta.
    now apply (variation_derived seed a q t). }
  destruct (chunks_lookup _ 20 _ _ ltac:(lia) Hchunks) as [_ Hlook].
  exists (concat chunks), g'. split; [exact Hrun|].
  intros i v Hv. destruct (Hlook i v Hv) as (seed & Hseed & Hb & Hk).
  eauto.
Qed.
End DatasetElements.

(** The ranges of the three numeric fields over the five seeds. *)
Lemma scenarios_ranges :
  Forall (fun seed => exists a q t : Q,
              Dataset.field_Q seed "amount" = Some a
              /\ Dataset.field_Q seed "query_cost" = Some q
              /\ Dataset.field_Q seed "target_savings" = Some t
              /\ (150 <= a <= 3000)%Q /\ (0.02 <= q <= 0.12)%Q
              /\ (15 <= t <= 150)%Q) Dataset.scenarios.
Proof.
  unfold Dataset.scenarios.
  repeat constructor;
    (eexists _, _, _; split; [vm_compute; reflexivity|];
     split; [vm_compute; reflexivity|];
     split; [vm_compute; reflexivity|];
     repeat split; vm_compute; discriminate).
Qed.

(** X6.  When the draws lie in their ranges, every generated scenario has an
    [amount] between 120 and 3600, a [query_cost] between 0.018 and 0.132
    and a [target_savings] between 12 and 180: all three are positive, and
    the target is above the floor 1 that the metric applies. *)
Theorem dataset_ranges (rng : Type) (uniform : Q -> Q -> rng -> Q * rng)
    (g : rng) :
  (forall (low high : Q) (g : rng),
      (low <= high)%Q -> (low <= (uniform low high g).1 <= high)%Q) ->
  exists dataset g',
    Dataset.create_mock_payment_dataset rng uniform g = (Return dataset, g')
    /\ forall (i : nat) variation,
         dataset !! i = Some variation ->
         exists a q t : Q,
           Dataset.field_Q variation "amount" = Some a
           /\ Dataset.field_Q variation "query_cost" = Some q
           /\ Dataset.field_Q variation "target_savings" = Some t
           /\ (120 <= a <= 3600)%Q /\ (0.018 <= q <= 0.132)%Q
           /\ (12 <= t <= 180)%Q.
Proof.
  intros Hrange.
  destruct (dataset_elements rng uniform Hrange g)
    as (dataset & g' & Hrun & Helem).
  exists dataset, g'. split; [exact Hrun|].
  intros i v Hv. destruct (Helem i v Hv) as (seed & Hseed & Hb & _).
  pose proof scenarios_ranges as Hr. rewrite Forall_lookup in Hr.
  destruct (Hr _ _ Hseed)
    as (a0 & q0 & t0 & Ha0 & Hq0 & Ht0 & Hra & Hrq & Hrt).
  destruct Hb as ((a0' & a & Ha0' & Ha & Hba) & (q0' & q & Hq0' & Hq & Hbq)
                  & (t0' & t & Ht0' & Ht & Hbt)).
  rewrite Ha0 in Ha0'. rewrite Hq0 in Hq0'. rewrite Ht0 in Ht0'.
  injection Ha0' as <-. injection Hq0' as <-. injection Ht0' as <-.
  exists a, q, t. repeat split; try assumption; lra.
Qed.

Lemma dataset_ranges_witness :
  exists dataset g',
    Dataset.create_mock_payment_dataset nat Dataset.sweep 0%nat
    = (Return dataset, g')
    /\ forall (i : nat) variation,
         dataset !! i = Some variation ->
         exists a q t : Q,
           Dataset.field_Q variation "amount" = Some a
           /\ Dataset.field_Q variation "query_cost" = Some q
           /\ Dataset.field_Q variation "target_savings" = Some t
           /\ (120 <= a <= 3600)%Q /\ (0.018 <= q <= 0.132)%Q
           /\ (12 <= t <= 180)%Q.
Proof.
  apply (dataset_ranges nat Dataset.sweep 0%nat sweep_range).
Defined.

(** X7.  On every scenario that the generator produces (draws in range),
    the metric returns a score for every prediction whose [total_savings] is
    not a [bytes] value: nothing in the dataset can make it raise. *)
Theorem metric_total_on_dataset (rng : Type)
    (uniform : Q -> Q -> rng -> Q * rng) (g : rng) :
  (forall (low high : Q) (g : rng),
      (low <= high)%Q -> (low <= (uniform low high g).1 <= high)%Q) ->
  exists dataset g',
    Dataset.create_mock_payment_dataset rng uniform g = (Return dataset, g')
    /\ forall (i : nat) example th prediction,
         dataset !! i = Some example ->
         (forall b, pred_fields prediction !! "total_savings"
                    <> Some (VBytes b)) ->
         exists score,
           CostAwareEfficiencyMetric.__call__ th example prediction
           = Return score.
Proof.
  intros Hrange.
  destruct (dataset_elements rng uniform Hrange g)
    as (dataset & g' & Hrun & Helem).
  exists dataset, g'. split; [exact Hrun|].
  intros i example th prediction Hex Hnb.
  destruct (Helem i example Hex) as (seed & _ & (_ & _ & Ht) & _).
  destruct Ht as (t0 & t & _ & Ht & _).
  assert (Htarget : parsed_target example = Return (Fin t)).
  { revert Ht. unfold Dataset.field_Q, parsed_target, dict_get.
    destruct (example !! "target_savings") as [v|]; [|discriminate].
    simpl. destruct v; simpl; try discriminate.
    - now intros [= <-].
    - now intros [= <-].
    - destruct f; try discriminate. now intros [= <-]. }
  unfold CostAwareEfficiencyMetric.__call__.
  rewrite call_body_cases, Htarget.
  destruct (parsed_savings prediction) as [s|e] eqn:Hs; [eauto|].
  destruct (parsed_savings_exceptions _ _ Hs) as [-> | [-> | (arg & ->)]];
    [eauto| |eauto].
  exfalso. revert Hs. unfold parsed_savings, py_getattr.
  destruct (pred_fields prediction !! "total_savings") as [attr|] eqn:Ha;
    [|discriminate].
  rewrite bind_Return.
  destruct attr; cbn [py_replace mbind outcome_bind];
    try discriminate; try (now destruct (Hnb s)).
  unfold py_float. now destruct (float_of_string _).
Qed.

Lemma metric_total_on_dataset_witness :
  exists dataset g',
    Dataset.create_mock_payment_dataset nat Dataset.sweep 0%nat
    = (Return dataset, g')
    /\ forall (i : nat) example th prediction,
         dataset !! i = Some example ->
         (forall b, pred_fields prediction !! "total_savings"
                    <> Some (VBytes b)) ->
         exists score,
           CostAwareEfficiencyMetric.__call__ th example prediction
           = Return score.
Proof.
  apply (metric_total_on_dataset nat Dataset.sweep 0%nat sweep_range).
Defined.

(** ** The SDK client: what [_make_request] does with each reply *)

Section RequestFacts.
Import AIAgentClient.
Variable self : AIAgentClient.t.

(** With a supported method the dispatch of lines 62-67 is one [send]. *)
Lemma dispatch_supported reply url method data :
  upper method = "GET" \/ upper method = "POST" ->
  exists req,
    (if String.eqb (upper method) "GET"
     then send reply (request self "GET" url None)
     else if String.eqb (upper method) "POST"
          then send reply (request self "POST" url data)
          else eff_raise
                 (ValueError (VStr ("Unsupported HTTP method: " +:+ method))))
    = send reply req
    /\ req_method req = upper method
    /\ req_url req = url
    /\ req_api_key req = api_key self
    /\ req_json req = (if String.eqb (upper method) "GET" then None else data).
Proof.
  intros [H | H]; rewrite H; eexists; repeat split.
Qed.

Lemma send_bind {B : Type} reply req (k : Response -> eff (list http_request) B)
    wire :
  (send reply req ≫= k) wire
  = match reply with
    | ReplyResponse r => k r (wire ++ [req])
    | ReplyTimeout => (Raise Timeout, wire ++ [req])
    | ReplyConnectionError => (Raise ConnectionError, wire ++ [req])
    | ReplyOtherError => (Raise OtherRequestError, wire ++ [req])
    end.
Proof. now destruct reply. Qed.
End RequestFacts.



(** X9.  With a supported method, a timeout becomes
    [RequestException('Request timeout: API did not respond in time')] and
    a connection failure becomes
    [RequestException('Connection error: Unable to connect to API')]; in
    both cases exactly one request, carrying the client's API key, has been
    sent, and there is no retry. *)
Theorem transport_failures_reported (self : AIAgentClient.t)
    (endpoint method : string) (data : option (gmap string pyval))
    (wire : list http_request) :
  upper method = "GET" \/ upper method = "POST" ->
  exists req,
    req_api_key req = AIAgentClient.api_key self
    /\ AIAgentClient._make_request self ReplyTimeout endpoint method data wire
       = (Raise (RequestException
                   "Request timeout: API did not respond in time"),
          wire ++ [req])
    /\ AIAgentClient._make_request self ReplyConnectionError endpoint method
         data wire
       = (Raise (RequestException
                   "Connection error: Unable to connect to API"),
          wire ++ [req]).
Proof.
  intros Hm. unfold AIAgentClient._make_request,
    AIAgentClient._make_request_try.
  set (url := if negb (String.prefix "http" endpoint)
              then AIAgentClient.base_url self +:+ endpoint else endpoint).
  destruct Hm as [H | H]; rewrite H; eexists;
    (split; [|split; reflexivity]); reflexivity.
Qed.

Lemma transport_failures_reported_witness :
  exists req,
    req_api_key req = AIAgentClient.api_key sample_client
    /\ AIAgentClient._make_request sample_client ReplyTimeout "?action=info"
         "get" None []
       = (Raise (RequestException
                   "Request timeout: API did not respond in time"),
          [] ++ [req])
    /\ AIAgentClient._make_request sample_client ReplyConnectionError
         "?action=info" "get" None []
       = (Raise (RequestException
                   "Connection error: Unable to connect to API"),
          [] ++ [req]).
Proof.
  apply (transport_failures_reported sample_client "?action=info" "get" None []).
  left. reflexivity.
Defined.

(** What [_make_request] makes of a response, for a supported method. *)
Lemma make_request_response (self : AIAgentClient.t) (r : Response)
    (endpoint method : string) (data : option (gmap string pyval))
    (wire : list http_request) :
  upper method = "GET" \/ upper method = "POST" ->
  exists req,
    req_api_key req = AIAgentClient.api_key self
    /\ req_method req = upper method
    /\ AIAgentClient._make_request self (ReplyResponse r) endpoint method data
         wire
       = (if ((400 <=? status_code r) && (status_code r <? 600))%Z
          then Raise (ValueError
                        (AIAgentClient.http_error_message
                           (status_code r) (reason r) (json_body r)))
          else match json_body r with
               | None => Raise JSONDecodeError
               | Some (VDict d) =>
                   if py_truthy (dict_get d "success" (VBool false))
                   then Return (VDict d)
                   else Raise (ValueError
                                 (dict_get d "error"
                                    (VStr "Unknown API error")))
               | Some _ => Raise AttributeError
               end,
          wire ++ [req]).
Proof.
  intros Hm. unfold AIAgentClient._make_request,
    AIAgentClient._make_request_try.
  set (url := if negb (String.prefix "http" endpoint)
              then AIAgentClient.base_url self +:+ endpoint else endpoint).
  destruct (dispatch_supported self (ReplyResponse r) url method data Hm)
    as (req & -> & Hmeth & _ & Hkey & _).
  exists req. split; [exact Hkey|]. split; [exact Hmeth|].
  rewrite send_bind, eff_lift_bind. unfold raise_for_status.
  destruct ((400 <=? status_code r) && (status_code r <? 600))%Z;
    [reflexivity|].
  cbv beta iota. rewrite eff_lift_bind. unfold response_json.
  destruct (json_body r) as [v|]; [|reflexivity].
  cbv beta iota. rewrite eff_lift_bind.
  destruct v; try reflexivity.
  cbn [py_get]. cbv beta iota.
  destruct (py_truthy (dict_get d "success" (VBool false)));
    cbn [negb]; [reflexivity|].
  rewrite eff_lift_bind. reflexivity.
Qed.

(** X10.  With a supported method, a response whose status is between 400
    and 599 makes [_make_request] raise a [ValueError]: with the [error]
    field of the body when the body is a JSON object that has one, with
    ['HTTP <status>'] when it is a JSON object without one, and with
    ['HTTP <status>: <reason>'] when the body is not a JSON object. *)
Theorem http_error_status_raises (self : AIAgentClient.t) (r : Response)
    (endpoint method : string) (data : option (gmap string pyval))
    (wire : list http_request) :
  upper method = "GET" \/ upper method = "POST" ->
  (400 <= status_code r < 600)%Z ->
  exists message wire',
    AIAgentClient._make_request self (ReplyResponse r) endpoint method data
      wire = (Raise (ValueError message), wire')
    /\ (forall d, json_body r = Some (VDict d) ->
          message = default (VStr ("HTTP " +:+ str_of_int (status_code r)))
                            (d !! "error"))
    /\ ((forall d, json_body r <> Some (VDict d)) ->
          message = VStr ("HTTP " +:+ str_of_int (status_code r) +:+ ": "
                          +:+ reason r)).
Proof.
  intros Hm Hst.
  destruct (make_request_response self r endpoint method data wire Hm)
    as (req & _ & _ & ->).
  replace ((400 <=? status_code r) && (status_code r <? 600))%Z with true
    by (symmetry; apply andb_true_intro; split; lia).
  do 2 eexists. split; [reflexivity|]. split.
  - intros d ->. reflexivity.
  - intros Hnd. unfold AIAgentClient.http_error_message.
    destruct (json_body r) as [v|]; [|reflexivity].
    destruct v; try reflexivity. now destruct (Hnd d).
Qed.

Lemma http_error_status_raises_witness :
  exists message wire',
    AIAgentClient._make_request sample_client
      (ReplyResponse {| status_code := 404; reason := "Not Found";
                        json_body := None |})
      "?action=info" "GET" None [] = (Raise (ValueError message), wire')
    /\ (forall d, (None : option pyval) = Some (VDict d) ->
          message = default (VStr ("HTTP " +:+ str_of_int 404)) (d !! "error"))
    /\ ((forall d, (None : option pyval) <> Some (VDict d)) ->
          message = VStr ("HTTP " +:+ str_of_int 404 +:+ ": " +:+ "Not Found")).
Proof.
  apply (http_error_status_raises sample_client
           {| status_code := 404; reason := "Not Found"; json_body := None |}
           "?action=info" "GET" None []).
  - left. reflexivity.
  - simpl. lia.
Defined.

(** X11.  With a supported method, a response whose status is not between
    400 and 599 and whose body is a JSON object with a true [success] makes
    [_make_request] return that object unchanged, after exactly one request
    carrying the client's API key. *)
Theorem success_envelope_returned (self : AIAgentClient.t) (r : Response)
    (d : gmap string pyval) (endpoint method : string)
    (data : option (gmap string pyval)) (wire : list http_request) :
  upper method = "GET" \/ upper method = "POST" ->
  ~ (400 <= status_code r < 600)%Z ->
  json_body r = Some (VDict d) ->
  py_truthy (dict_get d "success" (VBool false)) = true ->
  exists req,
    req_api_key req = AIAgentClient.api_key self
    /\ AIAgentClient._make_request self (ReplyResponse r) endpoint method data
         wire = (Return (VDict d), wire ++ [req]).
Proof.
  intros Hm Hst Hbody Hsucc.
  destruct (make_request_response self r endpoint method data wire Hm)
    as (req & Hkey & _ & ->).
  exists req. split; [exact Hkey|].
  replace ((400 <=? status_code r) && (status_code r <? 600))%Z with false
    by (symmetry; apply andb_false_iff; lia).
  now rewrite Hbody, Hsucc.
Qed.

Lemma success_envelope_returned_witness :
  exists req,
    req_api_key req = AIAgentClient.api_key sample_client
    /\ AIAgentClient._make_request sample_client
         (ReplyResponse CostOptimizedAIAgent.sample_success)
         "?action=info" "GET" None []
       = (Return (VDict CostOptimizedAIAgent.sample_body), [] ++ [req]).
Proof.
  apply (success_envelope_returned sample_client
           CostOptimizedAIAgent.sample_success
           CostOptimizedAIAgent.sample_body "?action=info" "GET" None []).
  - left. reflexivity.
  - simpl. lia.
  - reflexivity.
  - vm_compute. reflexivity.
Defined.

(** X12.  Whatever the arguments and whatever the network does,
    [_make_request] never lets a [Timeout], a [ConnectionError] or an
    [HTTPError] out: each of the three is replaced by the exception of its
    handler. *)
Theorem transport_exceptions_never_escape (self : AIAgentClient.t)
    (reply : net_reply) (endpoint method : string)
    (data : option (gmap string pyval)) (wire : list http_request) :
  (AIAgentClient._make_request self reply endpoint method data wire).1
  <> Raise Timeout
  /\ (AIAgentClient._make_request self reply endpoint method data wire).1
     <> Raise ConnectionError
  /\ forall status reason body,
       (AIAgentClient._make_request self reply endpoint method data wire).1
       <> Raise (HTTPError status reason body).
Proof.
  unfold AIAgentClient._make_request.
  destruct (AIAgentClient._make_request_try self reply _ method data wire)
    as [[v|e] wire'].
  - repeat split; discriminate.
  - destruct e; repeat split; discriminate.
Qed.

(** X13.  The other 2xx bodies, with a supported method: a JSON object
    without a [success] field is a failure like one with [success] false
    ([ValueError] with the [error] field or ['Unknown API error']); a JSON
    value that is not an object raises [AttributeError]; a body that is not
    JSON raises [JSONDecodeError]. *)
Theorem odd_bodies (self : AIAgentClient.t) (r : Response)
    (endpoint method : string) (data : option (gmap string pyval))
    (wire : list http_request) :
  upper method = "GET" \/ upper method = "POST" ->
  (200 <= status_code r < 300)%Z ->
  exists wire',
    (forall d, json_body r = Some (VDict d) -> d !! "success" = None ->
       AIAgentClient._make_request self (ReplyResponse r) endpoint method data
         wire
       = (Raise (ValueError (default (VStr "Unknown API error")
                               (d !! "error"))), wire'))
    /\ (forall v, json_body r = Some v -> (forall d, v <> VDict d) ->
          AIAgentClient._make_request self (ReplyResponse r) endpoint method
            data wire = (Raise AttributeError, wire'))
    /\ (json_body r = None ->
          AIAgentClient._make_request self (ReplyResponse r) endpoint method
            data wire = (Raise JSONDecodeError, wire')).
Proof.
  intros Hm Hst.
  destruct (make_request_response self r endpoint method data wire Hm)
    as (req & _ & _ & ->).
  replace ((400 <=? status_code r) && (status_code r <? 600))%Z with false
    by (symmetry; apply andb_false_iff; lia).
  exists (wire ++ [req]). split; [|split].
  - intros d -> Hnone. unfold dict_get at 1. now rewrite Hnone.
  - intros v -> Hnd. destruct v; try reflexivity. now destruct (Hnd d).
  - now intros ->.
Qed.

Lemma odd_bodies_witness :
  exists wire',
    (forall d, Some (VList []) = Some (VDict d) -> d !! "success" = None ->
       AIAgentClient._make_request sample_client
         (ReplyResponse {| status_code := 200; reason := "OK";
                           json_body := Some (VList []) |})
         "?action=info" "GET" None []
       = (Raise (ValueError (default (VStr "Unknown API error")
                               (d !! "error"))), wire'))
    /\ (forall v, Some (VList []) = Some v -> (forall d, v <> VDict d) ->
          AIAgentClient._make_request sample_client
            (ReplyResponse {| status_code := 200; reason := "OK";
                              json_body := Some (VList []) |})
            "?action=info" "GET" None [] = (Raise AttributeError, wire'))
    /\ (Some (VList []) = None ->
          AIAgentClient._make_request sample_client
            (ReplyResponse {| status_code := 200; reason := "OK";
                              json_body := Some (VList []) |})
            "?action=info" "GET" None [] = (Raise JSONDecodeError, wire')).
Proof.
  apply (odd_bodies sample_client
           {| status_code := 200; reason := "OK";
              json_body := Some (VList []) |} "?action=info" "GET" None []).
  - left. reflexivity.
  - simpl. lia.
Defined.





Lemma list_ascii_of_string_app (a b : string) :
  list_ascii_of_string (a +:+ b)
  = list_ascii_of_string a ++ list_ascii_of_string b.
Proof.
  induction a as [|c a IH]; [reflexivity|].
  change (String c a +:+ b) with (String c (a +:+ b)).
  cbn [list_ascii_of_string]. now rewrite IH.
Qed.

Lemma drop_leading_head c l :
  forall rest, drop_leading c l <> c :: rest.
Proof.
  induction l as [|a l IH]; intros rest; [discriminate|].
  cbn [drop_leading]. destruct (Ascii.eqb a c) eqn:E; [apply IH|].
  intros [= -> _]. now rewrite Ascii.eqb_refl in E.
Qed.

(** X15.  The client never keeps a trailing slash: the [base_url] set by
    [__init__] does not end in ['/'], and giving [__init__] the same URL
    with one more ['/'] at the end yields the same client, hence the same
    requests. *)
Theorem base_url_without_trailing_slash (api_key base_url : string)
    (timeout : Z) :
  (forall prefix,
      AIAgentClient.base_url (AIAgentClient.__init__ api_key base_url timeout)
      <> prefix +:+ "/")
  /\ AIAgentClient.__init__ api_key (base_url +:+ "/") timeout
     = AIAgentClient.__init__ api_key base_url timeout.
Proof.
  unfold AIAgentClient.__init__, rstrip_char. cbn [AIAgentClient.base_url].
  split.
  - intros prefix H.
    apply (f_equal list_ascii_of_string) in H.
    rewrite list_ascii_of_string_of_list_ascii, list_ascii_of_string_app in H.
    apply (f_equal (@rev ascii)) in H.
    rewrite rev_involutive, rev_app_distr in H. cbn in H.
    exact (drop_leading_head _ _ _ H).
  - f_equal. rewrite list_ascii_of_string_app, rev_app_distr. cbn.
    reflexivity.
Qed.

(** ** The quick-start agent: failures and the totals *)

Section AgentFailures.
Import CostOptimizedAIAgent.


End AgentFailures.



(** X17.  The failures that [chat] does not turn into its error result all
    leave the agent untouched: a transport exception is passed on as it
    is; on a 200 response a body that is not JSON raises the decode error,
    a JSON value that is not an object raises [TypeError], and a JSON
    object without [success] raises [KeyError('success')]. *)
Theorem chat_raises_unchanged (self : CostOptimizedAIAgent.t)
    (message max_cost : pyval) :
  CostOptimizedAIAgent.chat ReplyTimeout message max_cost self
  = (Raise Timeout, self)
  /\ CostOptimizedAIAgent.chat ReplyConnectionError message max_cost self
     = (Raise ConnectionError, self)
  /\ forall r, status_code r = 200%Z ->
       (json_body r = None ->
        CostOptimizedAIAgent.chat (ReplyResponse r) message max_cost self
        = (Raise JSONDecodeError, self))
       /\ (forall v, json_body r = Some v -> (forall d, v <> VDict d) ->
           CostOptimizedAIAgent.chat (ReplyResponse r) message max_cost self
           = (Raise TypeError, self))
       /\ (forall d, json_body r = Some (VDict d) -> d !! "success" = None ->
           CostOptimizedAIAgent.chat (ReplyResponse r) message max_cost self
           = (Raise (KeyError "success"), self)).
Proof.
  split; [reflexivity|]. split; [reflexivity|].
  intros r Hst. unfold CostOptimizedAIAgent.chat.
  rewrite eff_lift_bind. cbn [CostOptimizedAIAgent.post]. cbv beta iota.
  rewrite Hst. cbn [Z.eqb Pos.eqb].
  rewrite eff_lift_bind. unfold response_json.
  split; [|split].
  - now intros ->.
  - intros v -> Hnd. cbv beta iota. rewrite eff_lift_bind.
    destruct v; try reflexivity. now destruct (Hnd d).
  - intros d -> Hnone. cbv beta iota. rewrite eff_lift_bind.
    cbn [py_getitem]. now rewrite Hnone.
Qed.

(** X18.  Whatever the network answers, a call of [chat] leaves [api_key]
    and [base_url] alone and raises [total_calls] by 0 or 1; and when it
    returns the error result [{'error': 'Failed to get response'}], the
    agent is exactly as before. *)
Theorem chat_invariant (self : CostOptimizedAIAgent.t) (reply : net_reply)
    (message max_cost : pyval) :
  let after := (CostOptimizedAIAgent.chat reply message max_cost self).2 in
  CostOptimizedAIAgent.api_key after = CostOptimizedAIAgent.api_key self
  /\ CostOptimizedAIAgent.base_url after = CostOptimizedAIAgent.base_url self
  /\ (CostOptimizedAIAgent.total_calls after
      = CostOptimizedAIAgent.total_calls self
      \/ CostOptimizedAIAgent.total_calls after
         = (CostOptimizedAIAgent.total_calls self + 1)%Z)
  /\ ((CostOptimizedAIAgent.chat reply message max_cost self).1
      = Return CostOptimizedAIAgent.failed -> after = self).
Proof.
  unfold CostOptimizedAIAgent.chat, mbind, eff_mbind, eff_bind, eff_lift,
    mret, eff_mret, eff_ret, CostOptimizedAIAgent.get_self,
    CostOptimizedAIAgent.set_total_cost, CostOptimizedAIAgent.set_total_saved,
    CostOptimizedAIAgent.set_total_calls.
  cbv zeta.
  destruct (CostOptimizedAIAgent.post reply) as [r|e];
    [|repeat split; auto; discriminate].
  destruct (status_code r =? 200)%Z; [|repeat split; auto].
  destruct (response_json r) as [result|e];
    [|repeat split; auto; discriminate].
  destruct (py_getitem result "success") as [success|e];
    [|repeat split; auto; discriminate].
  destruct (py_truthy success); [|repeat split; auto].
  destruct (CostOptimizedAIAgent.data_item result "optimizedCost")
    as [cost|e]; [|repeat split; auto; discriminate].
  destruct (CostOptimizedAIAgent.add_number _ cost) as [sum|e];
    [|repeat split; auto; discriminate].
  cbn [CostOptimizedAIAgent.total_saved].
  destruct (CostOptimizedAIAgent.data_item result "savings")
    as [saved|e]; [|repeat split; auto; discriminate].
  destruct (CostOptimizedAIAgent.add_number _ saved) as [sum2|e];
    [|repeat split; auto; discriminate].
  cbn [CostOptimizedAIAgent.total_calls].
  destruct (CostOptimizedAIAgent.data_item result "optimizedResponse")
    as [msg|e]; [|repeat split; auto; discriminate].
  destruct (CostOptimizedAIAgent.data_item result "recommendedProvider")
    as [prov|e]; [|repeat split; auto; discriminate].
  repeat split; auto.
  cbn [fst]. intros [=].
Qed.

(** ** [batch_process] *)

(** A call of [chat] that returns either reports an error and changes
    nothing, or reports no error and counts one more call. *)
Lemma chat_returns_cases (self self' : CostOptimizedAIAgent.t)
    (reply : net_reply) (message max_cost v : pyval) :
  CostOptimizedAIAgent.chat reply message max_cost self = (Return v, self') ->
  (Batch.has_error v = true /\ self' = self)
  \/ (Batch.has_error v = false
      /\ CostOptimizedAIAgent.total_calls self'
         = (CostOptimizedAIAgent.total_calls self + 1)%Z).
Proof.
  unfold CostOptimizedAIAgent.chat, mbind, eff_mbind, eff_bind, eff_lift,
    mret, eff_mret, eff_ret, CostOptimizedAIAgent.get_self,
    CostOptimizedAIAgent.set_total_cost, CostOptimizedAIAgent.set_total_saved,
    CostOptimizedAIAgent.set_total_calls.
  cbv zeta.
  destruct (CostOptimizedAIAgent.post reply) as [r|e]; [|discriminate].
  destruct (status_code r =? 200)%Z; [|intros [= <- <-]; now left].
  destruct (response_json r) as [result|e]; [|discriminate].
  destruct (py_getitem result "success") as [success|e]; [|discriminate].
  destruct (py_truthy success); [|intros [= <- <-]; now left].
  destruct (CostOptimizedAIAgent.data_item result "optimizedCost")
    as [cost|e]; [|discriminate].
  destruct (CostOptimizedAIAgent.add_number _ cost) as [sum|e];
    [|discriminate].
  cbn [CostOptimizedAIAgent.total_saved].
  destruct (CostOptimizedAIAgent.data_item result "savings")
    as [saved|e]; [|discriminate].
  destruct (CostOptimizedAIAgent.add_number _ saved) as [sum2|e];
    [|discriminate].
  cbn [CostOptimizedAIAgent.total_calls].
  destruct (CostOptimizedAIAgent.data_item result "optimizedResponse")
    as [msg|e]; [|discriminate].
  destruct (CostOptimizedAIAgent.data_item result "recommendedProvider")
    as [prov|e]; [|discriminate].
  intros [= <- <-]. right. split; reflexivity.
Qed.

Lemma succeeded_app (a b : list pyval) :
  Batch.succeeded (a ++ b) = Batch.succeeded a ++ Batch.succeeded b.
Proof. unfold Batch.succeeded. apply filter_app. Qed.

Lemma batch_loop_counts (todo : list (pyval * net_reply)) (max_cost : pyval) :
  forall (acc results : list pyval) (self self' : CostOptimizedAIAgent.t),
    Batch.batch_loop todo max_cost acc self = (Return results, self') ->
    exists new,
      results = acc ++ new
      /\ length new = length todo
      /\ CostOptimizedAIAgent.total_calls self'
         = (CostOptimizedAIAgent.total_calls self
            + Z.of_nat (length (Batch.succeeded new)))%Z.
Proof.
  induction todo as [|[message reply] rest IH]; intros acc results self self'.
  - intros [= <- <-]. exists []. rewrite app_nil_r. repeat split.
    cbn. lia.
  - cbn [Batch.batch_loop]. unfold mbind, eff_mbind, eff_bind.
    destruct (CostOptimizedAIAgent.chat reply message max_cost self)
      as [[v|e] mid] eqn:Hchat; [|discriminate].
    intros Hrest. destruct (IH _ _ _ _ Hrest) as (new & -> & Hlen & Hcalls).
    exists (v :: new). rewrite <- app_assoc. split; [reflexivity|].
    split; [simpl; lia|].
    change (v :: new) with ([v] ++ new). rewrite succeeded_app, length_app.
    destruct (chat_returns_cases _ _ _ _ _ _ Hchat) as [[He ->] | [He Hc]].
    + unfold Batch.succeeded at 1. cbn [filter list_filter].
      rewrite decide_False by (rewrite He; discriminate). cbn. lia.
    + unfold Batch.succeeded at 1. cbn [filter list_filter].
      rewrite decide_True by exact He. cbn [length]. lia.
Qed.

(** X19.  When [batch_process] returns, it returns one result per message,
    and [total_calls] has grown by the number of results without an
    ['error'] key. *)
Theorem batch_process_counts (messages : list (pyval * net_reply))
    (max_cost : pyval) (results : list pyval)
    (self self' : CostOptimizedAIAgent.t) :
  Batch.batch_process messages max_cost self = (Return results, self') ->
  length results = length messages
  /\ CostOptimizedAIAgent.total_calls self'
     = (CostOptimizedAIAgent.total_calls self
        + Z.of_nat (length (Batch.succeeded results)))%Z.
Proof.
  intros H. destruct (batch_loop_counts _ _ _ _ _ _ H) as (new & -> & Hl & Hc).
  now split.
Qed.

Lemma batch_process_counts_witness :
  length [VDict {[ "message" := VStr "ok";
                   "cost" := VFloat (Fin 0.012);
                   "saved" := VFloat (Fin 0.008);
                   "provider" := VStr "perplexity" ]};
          CostOptimizedAIAgent.failed]
  = length [(VStr "first", ReplyResponse CostOptimizedAIAgent.sample_success);
            (VStr "second", ReplyResponse CostOptimizedAIAgent.sample_failure)]
  /\ CostOptimizedAIAgent.total_calls
       {| CostOptimizedAIAgent.api_key := "oa_key";
          CostOptimizedAIAgent.base_url :=
            CostOptimizedAIAgent.default_base_url;
          CostOptimizedAIAgent.total_cost := fadd (Fin 0) (Fin 0.012);
          CostOptimizedAIAgent.total_saved := fadd (Fin 0) (Fin 0.008);
          CostOptimizedAIAgent.total_calls := 0 + 1 |}
     = (CostOptimizedAIAgent.total_calls CostOptimizedAIAgent.sample_agent
        + Z.of_nat
            (length
               (Batch.succeeded
                  [VDict {[ "message" := VStr "ok";
                            "cost" := VFloat (Fin 0.012);
                            "saved" := VFloat (Fin 0.008);
                            "provider" := VStr "perplexity" ]};
                   CostOptimizedAIAgent.failed])))%Z.
Proof.
  apply (batch_process_counts
           [(VStr "first", ReplyResponse CostOptimizedAIAgent.sample_success);
            (VStr "second", ReplyResponse CostOptimizedAIAgent.sample_failure)]
           (VFloat (Fin 0.03))).
  vm_compute. reflexivity.
Defined.
